(** * Drift detection for customised Semgrep rules

    A shallow embedding of [utilities/track_rule_updates.py]: the custom-rule
    filter ([extract_custom_rules]), the pattern projection
    ([extract_patterns]) and the drift comparator ([compare_with_original]),
    together with the Python primitives they are written with. *)

From Stdlib Require Import String Ascii ZArith List Bool Lia.
From stdpp Require Import gmap strings.
Import ListNotations.
Local Open Scope string_scope.
Local Open Scope Z_scope.
Local Open Scope list_scope.

(** ** Python values

    What [json.load] and [response.json()] hand to the program.  A [dict]
    keeps its keys in insertion order, so it is an association list; a loaded
    dict has no repeated key ([wf]).  Integers are unbounded.  Floats are left
    out: the program reads no number, and the patterns of a rule are made of
    strings, lists and mappings. *)

#[local] Set Warnings "-register-all".
Inductive pyval : Type :=
| PNone
| PBool (b : bool)
| PInt (n : Z)
| PStr (s : string)
| PList (xs : list pyval)
| PDict (kvs : list (string * pyval)).

(** Exceptions the program can meet.  [RequestException] is what the
    [requests] library raises (connection failure, [raise_for_status]). *)
Inductive exn : Type :=
| KeyError
| IndexError
| TypeError
| AttributeError
| ValueError
| OSError
| RequestException (msg : string).

Inductive result (A : Type) : Type :=
| Ok (a : A)
| Raise (e : exn).
Arguments Ok {A} a.
Arguments Raise {A} e.

Definition rbind {A B} (r : result A) (k : A -> result B) : result B :=
  match r with
  | Ok a => k a
  | Raise e => Raise e
  end.

Notation "x <- e ;; k" := (rbind e (fun x => k))
  (at level 100, e at next level, right associativity).

(** [[f(x) for x in xs]] where [f] may raise: evaluated left to right, the
    first exception ends the comprehension. *)
Fixpoint for_each {A B} (f : A -> result B) (xs : list A) : result (list B) :=
  match xs with
  | [] => Ok []
  | x :: xs' => y <- f x ;; ys <- for_each f xs' ;; Ok (y :: ys)
  end.

(** [[x for x in xs if c(x)]] where the condition may raise. *)
Fixpoint select {A} (c : A -> result bool) (xs : list A) : result (list A) :=
  match xs with
  | [] => Ok []
  | x :: xs' =>
      b <- c x ;; ys <- select c xs' ;; Ok (if b then x :: ys else ys)
  end.

(** *** Dictionaries *)

Fixpoint dict_lookup (k : string) (kvs : list (string * pyval)) : option pyval :=
  match kvs with
  | [] => None
  | (k', v) :: rest => if String.eqb k k' then Some v else dict_lookup k rest
  end.

Definition dict_keys (kvs : list (string * pyval)) : list string := map fst kvs.

(** [d[k] = v] on a dict: an existing key keeps its position. *)
Fixpoint dict_set (k : string) (v : pyval) (kvs : list (string * pyval))
  : list (string * pyval) :=
  match kvs with
  | [] => [(k, v)]
  | (k', v') :: rest =>
      if String.eqb k k' then (k', v) :: rest else (k', v') :: dict_set k v rest
  end.

Fixpoint nodup_keys (ks : list string) : bool :=
  match ks with
  | [] => true
  | k :: rest => negb (existsb (String.eqb k) rest) && nodup_keys rest
  end.

(** Well-formed values: every dict, at any depth, has distinct keys. *)
Fixpoint wf (v : pyval) : bool :=
  match v with
  | PList xs => forallb wf xs
  | PDict kvs =>
      nodup_keys (map fst kvs)
      && (fix all (l : list (string * pyval)) : bool :=
            match l with
            | [] => true
            | (_, w) :: l' => wf w && all l'
            end) kvs
  | _ => true
  end.

(** *** Truth value, [==] *)

(** [bool(v)]. *)
Definition py_truthy (v : pyval) : bool :=
  match v with
  | PNone => false
  | PBool b => b
  | PInt n => negb (n =? 0)
  | PStr s => negb (String.eqb s "")
  | PList xs => match xs with [] => false | _ => true end
  | PDict kvs => match kvs with [] => false | _ => true end
  end.

(** [a == b].  Lists are compared element by element, in order; dicts have
    to have the same number of entries and [b] has to bind every key of [a]
    to an equal value, whatever the order of the keys; [True == 1]. *)
Fixpoint py_eq (a b : pyval) {struct a} : bool :=
  match a, b with
  | PNone, PNone => true
  | PBool x, PBool y => Bool.eqb x y
  | PBool x, PInt n => Z.b2z x =? n
  | PInt n, PBool y => n =? Z.b2z y
  | PInt n, PInt m => n =? m
  | PStr s, PStr t => String.eqb s t
  | PList xs, PList ys =>
      (fix go (l : list pyval) (r : list pyval) {struct l} : bool :=
         match l, r with
         | [], [] => true
         | x :: l', y :: r' => py_eq x y && go l' r'
         | _, _ => false
         end) xs ys
  | PDict kvs, PDict kws =>
      (length kvs =? length kws)%nat
      && (fix all (l : list (string * pyval)) : bool :=
            match l with
            | [] => true
            | (k, v) :: l' =>
                match dict_lookup k kws with
                | Some w => py_eq v w
                | None => false
                end && all l'
            end) kvs
  | _, _ => false
  end.

(** [a != b]. *)
Definition py_ne (a b : pyval) : bool := negb (py_eq a b).

(** *** Subscripts and methods *)

(** [v[k]] for a string [k]. *)
Definition py_getitem (v : pyval) (k : string) : result pyval :=
  match v with
  | PDict kvs =>
      match dict_lookup k kvs with
      | Some w => Ok w
      | None => Raise KeyError
      end
  | _ => Raise TypeError
  end.

(** [v[0]]. *)
Definition py_first (v : pyval) : result pyval :=
  match v with
  | PList [] => Raise IndexError
  | PList (x :: _) => Ok x
  | PStr EmptyString => Raise IndexError
  | PStr (String c _) => Ok (PStr (String c EmptyString))
  | PDict _ => Raise KeyError
  | _ => Raise TypeError
  end.

(** [v.get(k)]: only a dict has the method. *)
Definition py_get (v : pyval) (k : string) : result pyval :=
  match v with
  | PDict kvs =>
      match dict_lookup k kvs with
      | Some w => Ok w
      | None => Ok PNone
      end
  | _ => Raise AttributeError
  end.

(** [v.keys()]. *)
Definition py_keys (v : pyval) : result (list string) :=
  match v with
  | PDict kvs => Ok (dict_keys kvs)
  | _ => Raise AttributeError
  end.

Fixpoint chars (s : string) : list pyval :=
  match s with
  | EmptyString => []
  | String c s' => PStr (String c EmptyString) :: chars s'
  end.

(** [for x in v]: what the loop variable ranges over. *)
Definition py_iter (v : pyval) : result (list pyval) :=
  match v with
  | PList xs => Ok xs
  | PDict kvs => Ok (map PStr (dict_keys kvs))
  | PStr s => Ok (chars s)
  | _ => Raise TypeError
  end.

(** [key.startswith('pattern')]. *)
Definition is_pattern_key (key : string) : bool := String.prefix "pattern" key.

(** ** [extract_patterns] *)

Definition extract_patterns (rule : pyval) : result (list pyval) :=
  d <- py_get rule "definition" ;;
  if py_truthy d then
    (* Registry rules *)
    wrapper <- py_getitem rule "definition" ;;
    nested <- py_getitem wrapper "rules" ;;
    definition <- py_first nested ;;
    keys <- py_keys definition ;;
    for_each (fun key => v <- py_getitem definition key ;; Ok (PDict [(key, v)]))
             (List.filter is_pattern_key keys)
  else
    (* Custom rules *)
    keys <- py_keys rule ;;
    for_each (fun key => v <- py_getitem rule key ;; Ok (PDict [(key, v)]))
             (List.filter is_pattern_key keys).

(** ** [extract_custom_rules]

    The function is given here the document [json.load] read from the file.
    [rule_is_custom] is the condition of the comprehension: [and] evaluates
    its right operand only when the left one holds. *)

Definition rule_is_custom (rule : pyval) : result bool :=
  metadata <- py_getitem rule "metadata" ;;
  keys <- py_keys metadata ;;
  if existsb (String.eqb "semgrep.dev") keys then
    metadata' <- py_getitem rule "metadata" ;;
    section <- py_getitem metadata' "semgrep.dev" ;;
    info <- py_getitem section "rule" ;;
    origin <- py_getitem info "origin" ;;
    Ok (py_eq origin (PStr "custom"))
  else Ok false.

Definition extract_custom_rules (rules : pyval) : result (list pyval) :=
  listed <- py_getitem rules "rules" ;;
  items <- py_iter listed ;;
  select rule_is_custom items.

(** ** The world of the comparator

    [fetched] logs the identifiers sent to the registry, [files] holds the
    content of the files the program wrote, by file (two names of one file,
    as ["x"] and ["./x"], are one entry: see [file_of] below), [stdout] the
    texts handed to [print], one per call. *)

Record world : Type := World {
  fetched : list pyval;
  files : gmap string string;
  stdout : list string
}.

(** A naive [datetime] is a point on one time line; [<] is its order. *)
Definition datetime : Type := Z.

(** How a step ends: with a result, or [Beyond] what is described here.  A
    rule whose identifier is an integer (or a boolean) makes [open] adopt a
    file descriptor of the process instead of opening a file by name: where
    the dump then goes, and what closing that descriptor does to the texts
    printed before and after, depends on the descriptors the process holds
    and on the buffering of its streams.  The embedding stops there. *)
Inductive outcome (A : Type) : Type :=
| Done (r : result A)
| Beyond.
Arguments Done {A} r.
Arguments Beyond {A}.

Coercion Done : result >-> outcome.
#[local] Arguments pair {A B} & a b.

(** Computations that read and change the world and may raise; an exception
    leaves the world as it was when it was raised. *)
Definition M (A : Type) : Type := world -> world * outcome A.

Definition ret {A} (a : A) : M A := fun w => (w, Ok a).

Definition bind {A B} (m : M A) (k : A -> M B) : M B :=
  fun w =>
    match m w with
    | (w', Done (Ok a)) => k a w'
    | (w', Done (Raise e)) => (w', Raise e)
    | (w', Beyond) => (w', Beyond)
    end.

Definition lift {A} (r : result A) : M A := fun w => (w, Done r).

Notation "x <~ e ;; k" := (bind e (fun x => k))
  (at level 100, e at next level, right associativity).

Definition newline : string := String (ascii_of_nat 10) EmptyString.

Fixpoint string_drop (n : nat) (s : string) : string :=
  match n, s with
  | O, _ => s
  | S n', String _ s' => string_drop n' s'
  | S _, EmptyString => EmptyString
  end.

(** Writing [text] at offset 0 of a file that holds [old]. *)
Definition overwrite (text old : string) : string :=
  (text ++ string_drop (String.length text) old)%string.

(** The world after a request for [id] was sent. *)
Definition log_fetch (id : pyval) (w : world) : world :=
  World (fetched w ++ [id]) (files w) (stdout w).

(** [date and last_change_at < date]: a [datetime] is always true. *)
Definition unchanged_since (date : option datetime) (last_change_at : datetime) : bool :=
  match date with
  | Some d => last_change_at <? d
  | None => false
  end.

(** The collaborators: the registry behind [requests.get] (a failed
    request, a status that [raise_for_status] rejects or a body that is not
    JSON is a [Raise]), [datetime.strptime] with the format
    ["%a, %d %b %Y %H:%M:%S %Z"], [yaml.dump], the names the process may
    create or truncate, the file each name stands for in the file system
    (["x"] and ["./x"] stand for one file), and the standard output of the
    program run by [subprocess.run], which reads the files. *)
Record env : Type := Env {
  registry : pyval -> result pyval;
  strptime : string -> option datetime;
  yaml_dump : list pyval -> string;
  writable : string -> bool;
  file_of : string -> string;
  run_stdout : list string -> gmap string string -> string
}.

Definition get_rule (E : env) (id : pyval) : M pyval :=
  fun w => (log_fetch id w, registry E id).

(** [datetime.strptime(v, fmt)]. *)
Definition parse_timestamp (E : env) (v : pyval) : result datetime :=
  match v with
  | PStr s =>
      match strptime E s with
      | Some t => Ok t
      | None => Raise ValueError
      end
  | _ => Raise TypeError
  end.

(** Line 71: [datetime.strptime(original_rule['last_change_at'], fmt)]. *)
Definition last_change (E : env) (original_rule : pyval) : result datetime :=
  stamp <- py_getitem original_rule "last_change_at" ;;
  parse_timestamp E stamp.

(** Whether the character of code 0 occurs in [s]. *)
Fixpoint has_nul (s : string) : bool :=
  match s with
  | EmptyString => false
  | String c s' => Ascii.eqb c zero || has_nul s'
  end.

(** What [open(p, 'w')] answers: the file opened, an exception, or a
    descriptor adopted.  A name that holds the character of code 0 is
    refused with [ValueError] before the file system is asked; a name the
    file system refuses gives an [OSError]. *)
Definition open_outcome (E : env) (p : pyval) : outcome string :=
  match p with
  | PStr s =>
      if has_nul s then Raise ValueError
      else if writable E s then Ok (file_of E s)
      else Raise OSError
  | PInt _ | PBool _ => Beyond
  | _ => Raise TypeError
  end.

(** [open(p, 'w')]: the file is created or truncated. *)
Definition open_w (E : env) (p : pyval) : M string :=
  fun w =>
    match open_outcome E p with
    | Done (Ok f) => (World (fetched w) (<[f := ""]> (files w)) (stdout w), Ok f)
    | refused => (w, refused)
    end.

(** An argument of [subprocess.run]: a string. *)
Definition argument (v : pyval) : result string :=
  match v with
  | PStr s => Ok s
  | _ => Raise TypeError
  end.

(** [yaml.dump(data, f)] on a file just opened: the text goes to offset 0
    and is flushed when the document ends. *)
Definition dump_to (E : env) (f : string) (data : list pyval) : M unit :=
  fun w =>
    (World (fetched w)
           (<[f := overwrite (yaml_dump E data) (default "" (files w !! f))]> (files w))
           (stdout w),
     Ok tt).

(** [subprocess.run(argv, capture_output=True).stdout.decode()]. *)
Definition run (E : env) (argv : list string) : M string :=
  fun w => (w, Ok (run_stdout E argv (files w))).

Definition print (text : string) : M unit :=
  fun w => (World (fetched w) (files w) (stdout w ++ [(text ++ newline)%string]), Ok tt).

(** Lines 78-91: the branch taken when the cutoff does not exclude the
    rule.  [rule['id']] is read three times in the source, with one result;
    once [subprocess.run] has taken it as an argument it is a string, which
    the formatted text shows as it is. *)
Definition compare_patterns (E : env) (rule original_rule_id original_rule : pyval)
  : M unit :=
  original_pattern <~ lift (extract_patterns original_rule) ;;
  current_pattern <~ lift (extract_patterns rule) ;;
  let original_yaml := yaml_dump E original_pattern in
  let current_yaml := yaml_dump E current_pattern in
  if py_ne (PList original_pattern) (PList current_pattern) then
    id <~ lift (py_getitem rule "id") ;;
    custom_rule_file <~ open_w E id ;;
    original_rule_file <~ open_w E original_rule_id ;;
    _ <~ dump_to E original_rule_file original_pattern ;;
    _ <~ dump_to E custom_rule_file current_pattern ;;
    name <~ lift (argument id) ;;
    original_name <~ lift (argument original_rule_id) ;;
    diff_result <~ run E ["diff"; "-U"; "0"; "-b"; name; original_name] ;;
    print ("Rule ID: " ++ name ++ newline ++ diff_result)%string
  else ret tt.

(** Lines 64-91: the body of the loop. *)
Definition compare_rule (E : env) (date : option datetime) (rule : pyval) : M unit :=
  rule_metadata <~ lift (py_getitem rule "metadata") ;;
  reference <~ lift (py_get rule_metadata "original-rule") ;;
  if py_truthy reference then
    original_rule_id <~ lift (py_getitem rule_metadata "original-rule") ;;
    original_rule <~ get_rule E original_rule_id ;;
    last_change_at <~ lift (last_change E original_rule) ;;
    if unchanged_since date last_change_at
    then ret tt
    else compare_patterns E rule original_rule_id original_rule
  else ret tt.

Fixpoint compare_with_original (E : env) (rules : list pyval) (date : option datetime)
  : M unit :=
  match rules with
  | [] => ret tt
  | rule :: rest =>
      _ <~ compare_rule E date rule ;; compare_with_original E rest date
  end.

(** ** Words of the specification *)

(** One field of a rule as a one-entry mapping. *)
Definition entry (kv : string * pyval) : pyval := PDict [kv].

(** The fields whose name starts with the pattern prefix, in the order met,
    each wrapped on its own. *)
Definition projection_of (fields : list (string * pyval)) : list pyval :=
  map entry (List.filter (fun kv => is_pattern_key (fst kv)) fields).

(** The two shapes of a rule record and, for each, the fields its patterns
    live in: at the top of a custom rule (no [definition], or a false one),
    in the first record of the nested rule list of a registry rule. *)
Inductive rule_shape : pyval -> list (string * pyval) -> Prop :=
| custom_shape fields :
    dict_lookup "definition" fields = None ->
    rule_shape (PDict fields) fields
| custom_shape_falsy fields d :
    dict_lookup "definition" fields = Some d ->
    py_truthy d = false ->
    rule_shape (PDict fields) fields
| registry_shape fields wrapper nested others :
    dict_lookup "definition" fields = Some (PDict wrapper) ->
    dict_lookup "rules" wrapper = Some (PList (PDict nested :: others)) ->
    rule_shape (PDict fields) nested.

(** A pattern projection: one-entry mappings whose keys start with the
    pattern prefix and are pairwise distinct. *)
Definition entry_key (e : pyval) : option string :=
  match e with
  | PDict [(k, _)] => Some k
  | _ => None
  end.

Definition is_projection (p : list pyval) : bool :=
  forallb (fun e => match entry_key e with
                    | Some k => is_pattern_key k
                    | None => false
                    end) p
  && nodup_keys (omap entry_key p).

(** Placing the fields of a projection back onto an empty rule record, one
    assignment per field. *)
Definition rule_of_projection (p : list pyval) : pyval :=
  PDict (fold_left
           (fun acc e =>
              match e with
              | PDict kvs => fold_left (fun a kv => dict_set (fst kv) (snd kv) a) kvs acc
              | _ => acc
              end)
           p []).


(** Following a chain of keys through nested dicts. *)
Fixpoint path (v : pyval) (ks : list string) : option pyval :=
  match ks with
  | [] => Some v
  | k :: ks' =>
      match v with
      | PDict kvs =>
          match dict_lookup k kvs with
          | Some w => path w ks'
          | None => None
          end
      | _ => None
      end
  end.

(** The origin tag where the specification puts it:
    [R.metadata["origin"] == "custom"]. *)
Definition is_custom_spec (rule : pyval) : bool :=
  match path rule ["metadata"; "origin"] with
  | Some origin => py_eq origin (PStr "custom")
  | None => false
  end.

(** The origin tag where a deployment configuration carries it:
    [R.metadata["semgrep.dev"]["rule"]["origin"] == "custom"]. *)
Definition has_custom_origin (rule : pyval) : bool :=
  match path rule ["metadata"; "semgrep.dev"; "rule"; "origin"] with
  | Some origin => py_eq origin (PStr "custom")
  | None => false
  end.

(** Rule records the filter can read: the metadata is a mapping and its
    ["semgrep.dev"] entry, when there is one, leads to an origin tag. *)
Definition readable_rule (rule : pyval) : bool :=
  match path rule ["metadata"] with
  | Some (PDict metadata) =>
      match dict_lookup "semgrep.dev" metadata with
      | None => true
      | Some section =>
          match path section ["rule"; "origin"] with
          | Some _ => true
          | None => false
          end
      end
  | _ => false
  end.

(** ** Sample data *)

(** A rule tagged the way the specification words it. *)
Definition origin_only_rule : pyval :=
  PDict [("id", PStr "r1"); ("metadata", PDict [("origin", PStr "custom")])].

(** A registry rule as it appears in a deployment configuration. *)
Definition community_rule : pyval :=
  PDict [("id", PStr "r2"); ("metadata", PDict [("category", PStr "security")])].


(** The customised rule and the registry answer of the specification's
    scenario. *)
Definition my_rule_fields : list (string * pyval) :=
  [("id", PStr "my-rule");
   ("metadata",
    PDict [("semgrep.dev", PDict [("rule", PDict [("origin", PStr "custom")])]);
           ("original-rule", PStr "python.lang.security.foo")]);
   ("pattern", PStr "foo(...)")].

Definition my_rule : pyval := PDict my_rule_fields.

Definition foo_fields : list (string * pyval) :=
  [("id", PStr "python.lang.security.foo");
   ("languages", PList [PStr "python"]);
   ("patterns", PList [PDict [("pattern", PStr "foo($X)")]])].

Definition registry_foo : pyval :=
  PDict [("last_change_at", PStr "Mon, 02 Jan 2006 15:04:05 GMT");
         ("definition", PDict [("rules", PList [PDict foo_fields])])].



(** Collaborators to run the comparator with: a registry that knows one
    rule, a clock reading for its time stamp, a serialiser that lists the
    field names, a directory open to every name, and a comparison program
    that echoes the two files it is given. *)
Definition sample_registry (id : pyval) : result pyval :=
  if py_eq id (PStr "python.lang.security.foo")
  then Ok registry_foo
  else Raise (RequestException "404 Client Error").

Definition sample_strptime (s : string) : option datetime :=
  if String.eqb s "Mon, 02 Jan 2006 15:04:05 GMT" then Some 1136214245 else None.

Definition sample_yaml_dump (p : list pyval) : string :=
  String.concat "" (map (fun k => ("- " ++ k ++ ":" ++ newline)%string) (omap entry_key p)).

Definition sample_writable (p : string) : bool := true.

Definition sample_run_stdout (argv : list string) (dir : gmap string string) : string :=
  match argv with
  | [_; _; _; _; a; b] =>
      ("-" ++ default "" (dir !! a) ++ "+" ++ default "" (dir !! b))%string
  | _ => ""
  end.

Definition sample_file_of (name : string) : string := name.

Definition sample_env : env :=
  Env sample_registry sample_strptime sample_yaml_dump sample_writable sample_file_of
      sample_run_stdout.

Definition empty_world : world := World [] ∅ [].

(** A fully custom rule, and one whose reference is empty. *)
Definition home_made_rule_fields : list (string * pyval) :=
  [("id", PStr "home-made");
   ("metadata", PDict [("semgrep.dev", PDict [("rule", PDict [("origin", PStr "custom")])])]);
   ("pattern", PStr "bar(...)")].

Definition blank_reference_rule_fields : list (string * pyval) :=
  [("id", PStr "blank");
   ("metadata", PDict [("original-rule", PStr "")]);
   ("pattern", PStr "bar(...)")].

(** A custom rule that names a registry rule the sample registry lacks. *)
Definition orphan_rule_fields : list (string * pyval) :=
  [("id", PStr "orphan");
   ("metadata", PDict [("original-rule", PStr "python.lang.gone")]);
   ("pattern", PStr "baz(...)")].

(** ** Start-up: the token (lines 11-26) *)

(** [c.isspace()] for a character below 256. *)
Definition is_space (c : ascii) : bool :=
  let n := nat_of_ascii c in
  (((9 <=? n) && (n <=? 13)) || ((28 <=? n) && (n <=? 32))
   || (n =? 133) || (n =? 160))%nat.

(** [s.rstrip()]. *)
Fixpoint rstrip (s : string) : string :=
  match s with
  | EmptyString => EmptyString
  | String c s' =>
      match rstrip s' with
      | EmptyString => if is_space c then EmptyString else String c EmptyString
      | kept => String c kept
      end
  end.

Definition push_char (c : ascii) (parts : list string) : list string :=
  match parts with
  | [] => [String c EmptyString]
  | p :: ps => String c p :: ps
  end.

(** [s.split(': ')]. *)
Fixpoint split_colon_space (s : string) : list string :=
  match s with
  | EmptyString => [EmptyString]
  | String c rest =>
      match rest with
      | EmptyString => [String c EmptyString]
      | String c' rest' =>
          if Ascii.eqb c ":" && Ascii.eqb c' " "
          then EmptyString :: split_colon_space rest'
          else push_char c (split_colon_space rest)
      end
  end.

(** Whether [": "] occurs in [s]. *)
Fixpoint has_colon_space (s : string) : bool :=
  match s with
  | EmptyString => false
  | String c rest =>
      match rest with
      | EmptyString => false
      | String c' _ => (Ascii.eqb c ":" && Ascii.eqb c' " ") || has_colon_space rest
      end
  end.

(** Whether every character of [s] is white space. *)
Fixpoint blank (s : string) : bool :=
  match s with
  | EmptyString => true
  | String c rest => is_space c && blank rest
  end.

(** [xs.pop()]: the last item. *)
Definition pop {A} (xs : list A) : result A :=
  match rev xs with
  | [] => Raise IndexError
  | x :: _ => Ok x
  end.

(** Lines 16-19, on the lines [readlines] returned. *)
Definition token_of_settings (lines : list string) : result string :=
  token_line <- pop (map rstrip (List.filter (String.prefix "api_token") lines)) ;;
  match split_colon_space token_line with
  | [_; token] => Ok token
  | _ => Raise ValueError
  end.

(** What opening and reading [~/.semgrep/settings.yml] gives: no such file,
    another exception, or its lines. *)
Inductive settings_file : Type :=
| NoFile
| Unreadable (e : exn)
| Lines (lines : list string).

(** How the start of the module ends: with a token, with [exit()] after the
    texts printed, or with an exception nothing catches. *)
Inductive startup : Type :=
| Ready (token : string)
| Quit (printed : list string)
| Crashed (e : exn).

Definition discover_token (getenv : option string) (settings : settings_file) : startup :=
  match getenv with
  | Some token => Ready token
  | None =>
      match settings with
      | NoFile =>
          Quit [("No Semgrep settings found" ++ newline)%string;
                ("No token found - set SEMGREP_APP_TOKEN or use `semgrep login` before running."
                 ++ newline)%string]
      | Unreadable e => Crashed e
      | Lines lines =>
          match token_of_settings lines with
          | Ok token => Ready token
          | Raise e => Crashed e
          end
      end
  end.

(** ** [get_rule]: the address (lines 47-48), for an identifier that is a
    string *)

Definition registry_url : string := "https://semgrep.dev/api/registry/rules/".

Definition rule_path (id : string) : string := (registry_url ++ "/" ++ id)%string.

(** ** The entry point (lines 105-129) *)

(** What the entry point needs besides the collaborators of the comparator:
    [datetime.strptime] with the format ["%Y-%m-%d"] and [str(e)]. *)
Record cli : Type := Cli {
  parse_date : string -> option datetime;
  describe : exn -> string
}.

(** Lines 112-115: an absent or empty [--date] is no cutoff. *)
Definition cutoff_of (C : cli) (arg_date : option string) : result (option datetime) :=
  match arg_date with
  | Some s =>
      if py_truthy (PStr s)
      then match parse_date C s with
           | Some d => Ok (Some d)
           | None => Raise ValueError
           end
      else Ok None
  | None => Ok None
  end.

(** The two handlers: [RequestException] first, then [Exception]. *)
Definition report_error (C : cli) (e : exn) : M unit :=
  match e with
  | RequestException _ => print ("An HTTP error occurred: " ++ describe C e)%string
  | _ => print ("An error occurred: " ++ describe C e)%string
  end.

(** [sast] is what opening and loading ["sast.json"] gives. *)
Definition main (E : env) (C : cli) (arg_date : option string) (sast : result pyval)
  : M unit :=
  fun w =>
    match cutoff_of C arg_date with
    | Raise e => (w, Raise e)
    | Ok date =>
        match (rules <~ lift (config <- sast ;; extract_custom_rules config) ;;
               compare_with_original E rules date) w with
        | (w', Done (Ok _)) => (w', Ok tt)
        | (w', Done (Raise e)) => report_error C e w'
        | (w', Beyond) => (w', Beyond)
        end
    end.

(** ** More words for the batch *)

(** The original a rule refers to: a true [metadata['original-rule']]. *)
Definition reference (rule : pyval) : option pyval :=
  match py_getitem rule "metadata" with
  | Ok metadata =>
      match py_get metadata "original-rule" with
      | Ok r => if py_truthy r then Some r else None
      | Raise _ => None
      end
  | Raise _ => None
  end.

Definition request_of (rule : pyval) : list pyval :=
  match reference rule with
  | Some id => [id]
  | None => []
  end.

(** Whether [f] is the file that the identifier of the rule, or the one of
    its original, stands for. *)
Definition names_file (E : env) (f : string) (rule : pyval) : bool :=
  match py_getitem rule "id" with
  | Ok (PStr name) => String.eqb (file_of E name) f
  | _ => false
  end
  || match reference rule with
     | Some (PStr oid) => String.eqb (file_of E oid) f
     | _ => false
     end.

(** Rules that a cutoff [d] keeps from being compared: without a reference,
    or with an original last changed before [d]. *)
Definition behind_cutoff (E : env) (d : datetime) (rule : pyval) : bool :=
  match py_getitem rule "metadata" with
  | Ok (PDict metadata) =>
      match reference rule with
      | None => true
      | Some id =>
          match registry E id with
          | Ok original =>
              match last_change E original with
              | Ok t => t <? d
              | Raise _ => false
              end
          | Raise _ => false
          end
      end
  | _ => false
  end.

(** A line of a text file. *)
Definition line_of (text : string) : string := (text ++ newline)%string.

Definition sample_cli : cli :=
  Cli (fun s => if String.eqb s "2006-01-03" then Some 1136246400
                else if String.eqb s "2006-01-01" then Some 1136073600
                else None)
      (fun e => match e with
                | RequestException msg => msg
                | _ => "error"
                end).

(** A rule record without metadata. *)
Definition bare_rule : pyval := PDict [("id", PStr "bare")].

(** Texts that begin like a report of the comparator. *)
Definition report_texts (extra : list string) : Prop :=
  Forall (fun text => String.prefix "Rule ID: " text = true) extra.

(** A custom rule that carries the patterns of its original unchanged. *)
Definition faithful_copy_fields : list (string * pyval) :=
  [("id", PStr "my-copy");
   ("metadata", PDict [("original-rule", PStr "python.lang.security.foo")]);
   ("message", PStr "reworded");
   ("patterns", PList [PDict [("pattern", PStr "foo($X)")]])].


Definition nameless_fields : list (string * pyval) :=
  [("metadata", PDict [("original-rule", PStr "python.lang.security.foo")]);
   ("pattern", PStr "foo(...)")].

(** A directory in which the registry identifier cannot be created. *)
Definition guarded_env : env :=
  Env sample_registry sample_strptime sample_yaml_dump
      (fun p => negb (String.eqb p "python.lang.security.foo"))
      sample_file_of sample_run_stdout.

(** Texts that begin like one of the two messages of the entry point. *)
Definition error_texts (extra : list string) : Prop :=
  Forall (fun text => String.prefix "An HTTP error occurred: " text = true
                      \/ String.prefix "An error occurred: " text = true) extra.

(** ** Malformed time stamps *)

(** The ways the [last_change_at] of a fetched original can be unusable,
    with the exception each one gives: the answer is no mapping, the key is
    missing, its value is no string, or [strptime] rejects the string. *)
Inductive malformed_stamp (E : env) : pyval -> exn -> Prop :=
| answer_not_a_mapping original :
    (forall kvs, original <> PDict kvs) ->
    malformed_stamp E original TypeError
| stamp_missing kvs :
    dict_lookup "last_change_at" kvs = None ->
    malformed_stamp E (PDict kvs) KeyError
| stamp_not_a_string kvs v :
    dict_lookup "last_change_at" kvs = Some v ->
    (forall s, v <> PStr s) ->
    malformed_stamp E (PDict kvs) TypeError
| stamp_rejected kvs s :
    dict_lookup "last_change_at" kvs = Some (PStr s) ->
    strptime E s = None ->
    malformed_stamp E (PDict kvs) ValueError.

(** ** More sample data *)

(** A registry rule with a two-key mapping inside its patterns, and a
    custom rule that carries the same mapping with the keys in the other
    order. *)
Definition regex_fields : list (string * pyval) :=
  [("id", PStr "python.lang.security.regex");
   ("patterns",
    PList [PDict [("metavariable-regex",
                   PDict [("metavariable", PStr "$X"); ("regex", PStr "^a$")])]])].

Definition registry_regex : pyval :=
  PDict [("last_change_at", PStr "Mon, 02 Jan 2006 15:04:05 GMT");
         ("definition", PDict [("rules", PList [PDict regex_fields])])].

Definition reordered_rule_fields : list (string * pyval) :=
  [("id", PStr "my-regex");
   ("metadata", PDict [("original-rule", PStr "python.lang.security.regex")]);
   ("patterns",
    PList [PDict [("metavariable-regex",
                   PDict [("regex", PStr "^a$"); ("metavariable", PStr "$X")])]])].

(** Registry answers with an unusable time stamp. *)
Definition registry_misdated : pyval :=
  PDict [("last_change_at", PStr "yesterday");
         ("definition", PDict [("rules", PList [PDict foo_fields])])].

Definition registry_undated : pyval :=
  PDict [("definition", PDict [("rules", PList [PDict foo_fields])])].

Definition wide_registry (id : pyval) : result pyval :=
  if py_eq id (PStr "python.lang.security.foo") then Ok registry_foo
  else if py_eq id (PStr "python.lang.security.regex") then Ok registry_regex
  else if py_eq id (PStr "python.lang.misdated") then Ok registry_misdated
  else if py_eq id (PStr "python.lang.undated") then Ok registry_undated
  else Raise (RequestException "404 Client Error").

Definition wide_env : env :=
  Env wide_registry sample_strptime sample_yaml_dump sample_writable sample_file_of
      sample_run_stdout.

Definition misdated_rule_fields : list (string * pyval) :=
  [("id", PStr "misdated");
   ("metadata", PDict [("original-rule", PStr "python.lang.misdated")]);
   ("pattern", PStr "baz(...)")].

Definition undated_rule_fields : list (string * pyval) :=
  [("id", PStr "undated");
   ("metadata", PDict [("original-rule", PStr "python.lang.undated")]);
   ("pattern", PStr "baz(...)")].

(** A rule of custom origin whose original the registry lacks. *)
Definition custom_orphan_fields : list (string * pyval) :=
  [("id", PStr "orphan");
   ("metadata",
    PDict [("semgrep.dev", PDict [("rule", PDict [("origin", PStr "custom")])]);
           ("original-rule", PStr "python.lang.gone")]);
   ("pattern", PStr "baz(...)")].

(** A rule whose metadata has a ["semgrep.dev"] entry without origin tag. *)
Definition half_tagged_rule : pyval :=
  PDict [("id", PStr "r3"); ("metadata", PDict [("semgrep.dev", PDict [])])].

(** A name that cannot be a file name. *)
Definition nul_name : string := String zero "x".

(** A directory in which ["./x"] and ["x"] are one file. *)
Fixpoint strip_dot_slash (name : string) : string :=
  match name with
  | String "." (String "/" rest) => strip_dot_slash rest
  | _ => name
  end.

Definition dotted_env : env :=
  Env sample_registry sample_strptime sample_yaml_dump sample_writable strip_dot_slash
      sample_run_stdout.
(** ** Facts about dictionaries *)

Lemma existsb_eqb_In (k : string) (ks : list string) :
  existsb (String.eqb k) ks = true <-> In k ks.
Proof.
  rewrite existsb_exists. split.
  - intros [x [Hin Heq]]. apply String.eqb_eq in Heq. now subst.
  - intros Hin. exists k. split; [assumption | apply String.eqb_refl].
Qed.

Lemma dict_lookup_None (k : string) (kvs : list (string * pyval)) :
  dict_lookup k kvs = None <-> ~ In k (dict_keys kvs).
Proof.
  induction kvs as [| [k' v] rest IH]; simpl.
  - tauto.
  - destruct (String.eqb_spec k k') as [-> | Hne].
    + split; [discriminate | intros H; exfalso; apply H; now left].
    + rewrite IH. split.
      * intros H [Heq | Hin]; [congruence | tauto].
      * intros H Hin. apply H. now right.
Qed.

Lemma dict_lookup_key_present (k : string) (kvs : list (string * pyval)) :
  In k (dict_keys kvs) -> exists v, dict_lookup k kvs = Some v.
Proof.
  intros Hin. destruct (dict_lookup k kvs) as [v |] eqn:E.
  - now exists v.
  - apply dict_lookup_None in E. contradiction.
Qed.

Lemma nodup_keys_cons (k : string) (ks : list string) :
  nodup_keys (k :: ks) = true <-> ~ In k ks /\ nodup_keys ks = true.
Proof.
  simpl. rewrite andb_true_iff, negb_true_iff.
  rewrite <- existsb_eqb_In, not_true_iff_false. tauto.
Qed.

(** In a dict with distinct keys every listed binding is the one found. *)
Lemma dict_lookup_In (kvs : list (string * pyval)) (k : string) (v : pyval) :
  nodup_keys (dict_keys kvs) = true ->
  In (k, v) kvs -> dict_lookup k kvs = Some v.
Proof.
  induction kvs as [| [k' v'] rest IH]; intros Hnd Hin; [destruct Hin |].
  change (dict_keys ((k', v') :: rest)) with (k' :: dict_keys rest) in Hnd.
  apply nodup_keys_cons in Hnd. destruct Hnd as [Hfresh Hnd].
  simpl. destruct Hin as [Heq | Hin].
  - injection Heq as -> ->. now rewrite String.eqb_refl.
  - destruct (String.eqb_spec k k') as [-> | _].
    + exfalso. apply Hfresh. unfold dict_keys. apply in_map_iff.
      now exists (k', v).
    + now apply IH.
Qed.

Lemma py_getitem_found (kvs : list (string * pyval)) (k : string) (v : pyval) :
  dict_lookup k kvs = Some v -> py_getitem (PDict kvs) k = Ok v.
Proof. intros H. unfold py_getitem. now rewrite H. Qed.

Lemma py_get_found (kvs : list (string * pyval)) (k : string) (v : pyval) :
  dict_lookup k kvs = Some v -> py_get (PDict kvs) k = Ok v.
Proof. intros H. unfold py_get. now rewrite H. Qed.

Lemma py_get_missing (kvs : list (string * pyval)) (k : string) :
  dict_lookup k kvs = None -> py_get (PDict kvs) k = Ok PNone.
Proof. intros H. unfold py_get. now rewrite H. Qed.

Lemma for_each_cons {A B} (f : A -> result B) (x : A) (xs : list A) :
  for_each f (x :: xs) = (y <- f x ;; ys <- for_each f xs ;; Ok (y :: ys)).
Proof. reflexivity. Qed.

(** ** The comprehension of [extract_patterns] *)

Lemma wrap_fields_total (fields : list (string * pyval)) (keys : list string) :
  (forall k, In k keys -> In k (dict_keys fields)) ->
  exists p,
    for_each (fun key => v <- py_getitem (PDict fields) key ;; Ok (PDict [(key, v)]))
             keys = Ok p
    /\ length p = length keys.
Proof.
  induction keys as [| k keys IH]; intros Hsub.
  - now exists [].
  - destruct (dict_lookup_key_present k fields) as [v Hv].
    { apply Hsub. now left. }
    destruct IH as [p [Hp Hlen]].
    { intros k' Hk'. apply Hsub. now right. }
    exists (PDict [(k, v)] :: p).
    rewrite for_each_cons. cbv beta.
    rewrite (py_getitem_found _ _ _ Hv). cbn [rbind].
    rewrite Hp. cbn [rbind length]. now rewrite Hlen.
Qed.

Lemma wrap_fields_sub (fields part : list (string * pyval)) :
  (forall k v, In (k, v) part -> dict_lookup k fields = Some v) ->
  for_each (fun key => v <- py_getitem (PDict fields) key ;; Ok (PDict [(key, v)]))
           (List.filter is_pattern_key (dict_keys part))
  = Ok (projection_of part).
Proof.
  unfold projection_of.
  induction part as [| [k v] part IH]; intros Hfound; [reflexivity |].
  assert (Hrest : forall k' v', In (k', v') part -> dict_lookup k' fields = Some v').
  { intros k' v' Hin. apply Hfound. now right. }
  change (dict_keys ((k, v) :: part)) with (k :: dict_keys part).
  cbn [List.filter fst]. destruct (is_pattern_key k) eqn:Ek.
  - rewrite for_each_cons. cbv beta.
    rewrite (py_getitem_found fields k v) by (apply Hfound; now left).
    cbn [rbind]. rewrite (IH Hrest). reflexivity.
  - exact (IH Hrest).
Qed.

Lemma wrap_fields (fields : list (string * pyval)) :
  nodup_keys (dict_keys fields) = true ->
  for_each (fun key => v <- py_getitem (PDict fields) key ;; Ok (PDict [(key, v)]))
           (List.filter is_pattern_key (dict_keys fields))
  = Ok (projection_of fields).
Proof.
  intros Hnd. apply wrap_fields_sub.
  intros k v Hin. now apply dict_lookup_In.
Qed.

(** What [extract_patterns] does on each shape, before the comprehension. *)
Lemma extract_patterns_shape (rule : pyval) (fields : list (string * pyval)) :
  rule_shape rule fields ->
  extract_patterns rule
  = for_each (fun key => v <- py_getitem (PDict fields) key ;; Ok (PDict [(key, v)]))
             (List.filter is_pattern_key (dict_keys fields)).
Proof.
  intros Hshape. unfold extract_patterns.
  destruct Hshape as [fields Hnone | fields d Hd Hfalsy | fields wrapper nested others Hw Hn].
  - rewrite (py_get_missing _ _ Hnone). reflexivity.
  - rewrite (py_get_found _ _ _ Hd). cbn [rbind]. rewrite Hfalsy. reflexivity.
  - rewrite (py_get_found _ _ _ Hw). cbn [rbind].
    assert (Htruthy : py_truthy (PDict wrapper) = true).
    { destruct wrapper; [discriminate | reflexivity]. }
    rewrite Htruthy, (py_getitem_found _ _ _ Hw). cbn [rbind].
    rewrite (py_getitem_found _ _ _ Hn). reflexivity.
Qed.

(** ** [extract_patterns]: the projection *)

(** On either shape the result is the projection of the fields the shape
    points at. *)
Lemma projection_on_shape (rule : pyval) (fields : list (string * pyval)) :
  rule_shape rule fields ->
  nodup_keys (dict_keys fields) = true ->
  extract_patterns rule = Ok (projection_of fields).
Proof.
  intros Hshape Hnd.
  rewrite (extract_patterns_shape rule fields Hshape).
  now apply wrap_fields.
Qed.

(** C4. On a rule record of either shape, custom (fields at the top) or
    registry (fields in the first record of the nested rule list),
    [extract_patterns] returns the one-entry mappings of exactly the fields
    whose name starts with ["pattern"], in the order met; both shapes are
    filtered with the same prefix test [is_pattern_key]. *)
Theorem extract_patterns_projects (rule : pyval) (fields : list (string * pyval)) :
  rule_shape rule fields ->
  nodup_keys (dict_keys fields) = true ->
  extract_patterns rule = Ok (projection_of fields).
Proof. exact (projection_on_shape rule fields). Qed.

Lemma extract_patterns_projects_witness :
  extract_patterns my_rule = Ok [PDict [("pattern", PStr "foo(...)")]]
  /\ extract_patterns registry_foo
     = Ok [PDict [("patterns", PList [PDict [("pattern", PStr "foo($X)")]])]].
Proof.
  split.
  - exact (extract_patterns_projects my_rule my_rule_fields
             (custom_shape my_rule_fields eq_refl) eq_refl).
  - exact (extract_patterns_projects registry_foo foo_fields
             (registry_shape
                [("last_change_at", PStr "Mon, 02 Jan 2006 15:04:05 GMT");
                 ("definition", PDict [("rules", PList [PDict foo_fields])])]
                [("rules", PList [PDict foo_fields])] foo_fields []
                eq_refl eq_refl)
             eq_refl).
Defined.

(** ** [extract_patterns]: failures *)


Lemma filter_none {A} (f : A -> bool) (xs : list A) :
  forallb (fun x => negb (f x)) xs = true -> List.filter f xs = [].
Proof.
  induction xs as [| x xs IH]; simpl; [reflexivity |].
  rewrite andb_true_iff, negb_true_iff. intros [Hx Hxs].
  rewrite Hx. now apply IH.
Qed.



(** ** [extract_patterns]: idempotence *)

Lemma dict_set_fresh (k : string) (v : pyval) (kvs : list (string * pyval)) :
  ~ In k (dict_keys kvs) -> dict_set k v kvs = kvs ++ [(k, v)].
Proof.
  induction kvs as [| [k' v'] rest IH]; intros Hfresh; [reflexivity |].
  simpl. destruct (String.eqb_spec k k') as [-> | Hne].
  - exfalso. apply Hfresh. now left.
  - rewrite IH; [reflexivity |]. intros Hin. apply Hfresh. now right.
Qed.

Lemma nodup_keys_app (xs ys : list string) :
  nodup_keys (xs ++ ys) = true ->
  nodup_keys ys = true /\ (forall k, In k xs -> ~ In k ys).
Proof.
  induction xs as [| x xs IH]; intros Hnd.
  - split; [exact Hnd | intros k []].
  - change ((x :: xs) ++ ys) with (x :: (xs ++ ys)) in Hnd.
    apply nodup_keys_cons in Hnd. destruct Hnd as [Hfresh Hnd].
    destruct (IH Hnd) as [Hys Hdisj]. split; [exact Hys |].
    intros k [-> | Hin]; [| now apply Hdisj].
    intros Hk. apply Hfresh. apply in_or_app. now right.
Qed.

(** Assigning the fields of [map entry kvs] one after the other appends
    them, as long as no key is met twice. *)
Lemma assign_entries (kvs acc : list (string * pyval)) :
  nodup_keys (dict_keys (acc ++ kvs)) = true ->
  fold_left
    (fun acc e =>
       match e with
       | PDict l => fold_left (fun a kv => dict_set (fst kv) (snd kv) a) l acc
       | _ => acc
       end)
    (map entry kvs) acc
  = acc ++ kvs.
Proof.
  revert acc. induction kvs as [| [k v] kvs IH]; intros acc Hnd.
  - now rewrite app_nil_r.
  - cbn [map entry fold_left fst snd].
    assert (Hfresh : ~ In k (dict_keys acc)).
    { unfold dict_keys in *. rewrite map_app in Hnd.
      destruct (nodup_keys_app _ _ Hnd) as [_ Hdisj].
      intros Hin. apply (Hdisj k Hin). now left. }
    rewrite (dict_set_fresh k v acc Hfresh).
    rewrite IH; rewrite <- app_assoc; [reflexivity | exact Hnd].
Qed.

(** A projection is the wrapping of a list of distinct pattern fields. *)
Lemma is_projection_fields (p : list pyval) :
  is_projection p = true ->
  exists kvs,
    p = map entry kvs
    /\ forallb (fun kv => is_pattern_key (fst kv)) kvs = true
    /\ nodup_keys (dict_keys kvs) = true.
Proof.
  unfold is_projection. rewrite andb_true_iff.
  induction p as [| e p IH]; intros [Hall Hnd].
  - now exists [].
  - cbn [forallb] in Hall. apply andb_true_iff in Hall. destruct Hall as [He Hall].
    destruct e as [| | | | | kvs]; try discriminate He.
    destruct kvs as [| [k v] [| ? ?]]; try discriminate He.
    cbn in He. change (omap entry_key (PDict [(k, v)] :: p))
      with (k :: omap entry_key p) in Hnd.
    pose proof Hnd as Hnd'.
    apply nodup_keys_cons in Hnd'. destruct Hnd' as [_ Hnd'].
    destruct (IH (conj Hall Hnd')) as [kvs [-> [Hpre Hkeys]]].
    exists ((k, v) :: kvs). repeat split.
    + cbn [forallb fst]. now rewrite He, Hpre.
    + assert (Hsame : omap entry_key (map entry kvs) = dict_keys kvs).
      { clear. induction kvs as [| [k' v'] kvs IH]; [reflexivity |].
        cbn. f_equal. exact IH. }
      rewrite Hsame in Hnd. exact Hnd.
Qed.

Lemma projection_keeps_pattern_fields (kvs : list (string * pyval)) :
  forallb (fun kv => is_pattern_key (fst kv)) kvs = true ->
  projection_of kvs = map entry kvs.
Proof.
  unfold projection_of. induction kvs as [| kv kvs IH]; [reflexivity |].
  cbn [forallb List.filter]. rewrite andb_true_iff. intros [Hk Hrest].
  rewrite Hk. cbn [map]. now rewrite IH.
Qed.

Lemma pattern_fields_have_no_definition (kvs : list (string * pyval)) :
  forallb (fun kv => is_pattern_key (fst kv)) kvs = true ->
  dict_lookup "definition" kvs = None.
Proof.
  induction kvs as [| [k v] kvs IH]; [reflexivity |].
  cbn [forallb fst dict_lookup]. rewrite andb_true_iff. intros [Hk Hrest].
  destruct (String.eqb_spec "definition" k) as [<- | _]; [discriminate Hk |].
  now apply IH.
Qed.

(** C8. [extract_patterns] is idempotent: for every pattern projection [p],
    extracting from the rule record that carries the fields of [p] yields
    [p] again. *)
Theorem extract_patterns_idempotent (p : list pyval) :
  is_projection p = true ->
  extract_patterns (rule_of_projection p) = Ok p.
Proof.
  intros Hp.
  destruct (is_projection_fields p Hp) as [kvs [-> [Hpre Hnd]]].
  unfold rule_of_projection. rewrite (assign_entries kvs []) by exact Hnd.
  cbn [app].
  rewrite (projection_on_shape (PDict kvs) kvs).
  - now rewrite projection_keeps_pattern_fields.
  - apply custom_shape. now apply pattern_fields_have_no_definition.
  - exact Hnd.
Qed.

Lemma extract_patterns_idempotent_witness :
  is_projection [PDict [("pattern-either", PList [PStr "a"; PStr "b"])];
                 PDict [("pattern-not", PStr "c")]] = true
  /\ extract_patterns
       (PDict [("pattern-either", PList [PStr "a"; PStr "b"]);
               ("pattern-not", PStr "c")])
     = Ok [PDict [("pattern-either", PList [PStr "a"; PStr "b"])];
           PDict [("pattern-not", PStr "c")]].
Proof.
  split; [reflexivity |].
  exact (extract_patterns_idempotent
           [PDict [("pattern-either", PList [PStr "a"; PStr "b"])];
            PDict [("pattern-not", PStr "c")]] eq_refl).
Defined.

(** What [extract_patterns] returns on a well-shaped rule is a projection,
    so the theorem above applies to every output of the extractor. *)
Lemma extract_patterns_is_projection (rule : pyval) (fields : list (string * pyval))
      (p : list pyval) :
  rule_shape rule fields ->
  nodup_keys (dict_keys fields) = true ->
  extract_patterns rule = Ok p ->
  is_projection p = true.
Proof.
  intros Hshape Hnd Hp.
  rewrite (projection_on_shape rule fields Hshape Hnd) in Hp.
  injection Hp as <-. clear Hshape. unfold is_projection, projection_of.
  induction fields as [| [k v] fields IH]; [reflexivity |].
  change (dict_keys ((k, v) :: fields)) with (k :: dict_keys fields) in Hnd.
  pose proof Hnd as Hnd'.
  apply nodup_keys_cons in Hnd'. destruct Hnd' as [Hfresh Hrest].
  specialize (IH Hrest). apply andb_true_iff in IH. destruct IH as [IH1 IH2].
  cbn [List.filter fst]. destruct (is_pattern_key k) eqn:Ek.
  - cbn [map entry forallb entry_key]. rewrite Ek, IH1. cbn [andb].
    change (omap entry_key (PDict [(k, v)] :: ?l)) with (k :: omap entry_key l).
    apply nodup_keys_cons. split; [| exact IH2].
    intros Hin. apply Hfresh.
    clear - Hin. induction fields as [| [k' v'] fields IH]; [destruct Hin |].
    cbn [List.filter fst] in Hin. destruct (is_pattern_key k').
    + cbn in Hin. destruct Hin as [-> | Hin]; [now left | right; now apply IH].
    + right. now apply IH.
  - now rewrite IH1, IH2.
Qed.

(** ** [extract_custom_rules] *)

Lemma select_pure {A} (c : A -> result bool) (f : A -> bool) (xs : list A) :
  (forall x, In x xs -> c x = Ok (f x)) ->
  select c xs = Ok (List.filter f xs).
Proof.
  induction xs as [| x xs IH]; intros Hc; [reflexivity |].
  cbn [select List.filter]. rewrite (Hc x) by now left.
  cbn [rbind]. rewrite IH by (intros y Hy; apply Hc; now right).
  reflexivity.
Qed.

Lemma select_In {A} (c : A -> result bool) (xs out : list A) :
  select c xs = Ok out -> forall x, In x out -> c x = Ok true.
Proof.
  revert out. induction xs as [| y xs IH]; intros out Hsel x Hin.
  - injection Hsel as <-. destruct Hin.
  - cbn [select] in Hsel.
    destruct (c y) as [b |] eqn:Ey; [| discriminate Hsel].
    destruct (select c xs) as [ys |] eqn:Eys; [| discriminate Hsel].
    cbn [rbind] in Hsel. injection Hsel as <-.
    destruct b; [destruct Hin as [<- | Hin] |]; eauto.
Qed.

Lemma select_skip {A} (c : A -> result bool) (x : A) (before after : list A) :
  c x = Ok false ->
  select c (before ++ x :: after) = select c (before ++ after).
Proof.
  intros Hx. induction before as [| y before IH].
  - cbn [app select]. rewrite Hx. cbn [rbind].
    now destruct (select c after).
  - cbn [app select]. now rewrite IH.
Qed.

Lemma key_listed (k : string) (kvs : list (string * pyval)) :
  existsb (String.eqb k) (dict_keys kvs)
  = match dict_lookup k kvs with Some _ => true | None => false end.
Proof.
  induction kvs as [| [k' v] kvs IH]; [reflexivity |].
  cbn [dict_keys map fst existsb dict_lookup].
  destruct (String.eqb k k'); [reflexivity | exact IH].
Qed.

Lemma rule_is_custom_readable (rule : pyval) :
  readable_rule rule = true ->
  rule_is_custom rule = Ok (has_custom_origin rule).
Proof.
  unfold readable_rule, rule_is_custom, has_custom_origin.
  destruct rule as [| | | | | fields]; try discriminate.
  cbn [path py_getitem].
  destruct (dict_lookup "metadata" fields) as [[| | | | | metadata] |];
    try discriminate.
  cbn [rbind py_keys py_getitem path]. rewrite key_listed.
  destruct (dict_lookup "semgrep.dev" metadata) as [section |]; [| reflexivity].
  destruct section as [| | | | | sec]; try discriminate.
  cbn [rbind py_getitem].
  destruct (dict_lookup "rule" sec) as [[| | | | | info] |]; try discriminate.
  cbn [rbind py_getitem].
  destruct (dict_lookup "origin" info); [reflexivity | discriminate].
Qed.

(** C3, as stated, fails: a rule tagged [metadata["origin"] == "custom"] is
    left out, and a rule kept by the filter need not have that key. *)
Lemma filter_ignores_top_level_origin :
  is_custom_spec origin_only_rule = true
  /\ extract_custom_rules (PDict [("rules", PList [origin_only_rule; my_rule])])
     = Ok [my_rule]
  /\ is_custom_spec my_rule = false.
Proof. repeat split. Qed.

(** C3, amended. On a rule set of readable records the filter returns
    exactly the rules whose metadata has a ["semgrep.dev"] entry with
    [metadata["semgrep.dev"]["rule"]["origin"] == "custom"], in the order of
    the rule set, and no others. *)
Theorem extract_custom_rules_filters (config : pyval) (rules : list pyval) :
  py_getitem config "rules" = Ok (PList rules) ->
  forallb readable_rule rules = true ->
  extract_custom_rules config = Ok (List.filter has_custom_origin rules).
Proof.
  intros Hrules Hread. unfold extract_custom_rules.
  rewrite Hrules. cbn [rbind py_iter].
  apply select_pure. intros rule Hin.
  apply rule_is_custom_readable.
  rewrite forallb_forall in Hread. now apply Hread.
Qed.

Lemma extract_custom_rules_filters_witness :
  extract_custom_rules
    (PDict [("rules", PList [community_rule; my_rule; origin_only_rule])])
  = Ok [my_rule].
Proof.
  exact (extract_custom_rules_filters
           (PDict [("rules", PList [community_rule; my_rule; origin_only_rule])])
           [community_rule; my_rule; origin_only_rule] eq_refl eq_refl).
Defined.

(** C9, as stated, fails whichever key is meant: a rule whose metadata has
    no ["origin"] key can be kept by the filter, and a rule whose metadata
    has a ["semgrep.dev"] entry without the origin tag inside makes the
    filter raise [KeyError]. *)
Lemma missing_origin_tag_kept_or_raising :
  path my_rule ["metadata"; "origin"] = None
  /\ extract_custom_rules (PDict [("rules", PList [my_rule])]) = Ok [my_rule]
  /\ path half_tagged_rule ["metadata"; "semgrep.dev"; "rule"; "origin"] = None
  /\ extract_custom_rules (PDict [("rules", PList [half_tagged_rule])]) = Raise KeyError.
Proof. split; [| split; [| split]]; reflexivity. Qed.

(** C9, amended. A rule whose metadata has no ["semgrep.dev"] entry, the
    key the origin tag is kept under, is left out of the result and raises
    nothing: its test evaluates to false, it is in no result of the filter,
    and the filter behaves on a rule set as it does on the rule set without
    it. *)
Theorem untagged_rule_excluded (fields metadata : list (string * pyval)) :
  dict_lookup "metadata" fields = Some (PDict metadata) ->
  dict_lookup "semgrep.dev" metadata = None ->
  rule_is_custom (PDict fields) = Ok false
  /\ (forall config out,
         extract_custom_rules config = Ok out -> ~ In (PDict fields) out)
  /\ (forall config config' before after,
         py_getitem config "rules" = Ok (PList (before ++ PDict fields :: after)) ->
         py_getitem config' "rules" = Ok (PList (before ++ after)) ->
         extract_custom_rules config = extract_custom_rules config').
Proof.
  intros Hmd Hkey.
  assert (Hfalse : rule_is_custom (PDict fields) = Ok false).
  { unfold rule_is_custom. rewrite (py_getitem_found _ _ _ Hmd).
    cbn [rbind py_keys]. rewrite key_listed, Hkey. reflexivity. }
  split; [exact Hfalse | split].
  - intros config out Hout Hin. unfold extract_custom_rules in Hout.
    destruct (py_getitem config "rules") as [listed |]; [| discriminate Hout].
    cbn [rbind] in Hout.
    destruct (py_iter listed) as [items |]; [| discriminate Hout].
    cbn [rbind] in Hout.
    pose proof (select_In _ _ _ Hout _ Hin) as Htrue.
    rewrite Hfalse in Htrue. discriminate Htrue.
  - intros config config' before after Hc Hc'. unfold extract_custom_rules.
    rewrite Hc, Hc'. cbn [rbind py_iter]. now apply select_skip.
Qed.

Lemma untagged_rule_excluded_witness :
  rule_is_custom community_rule = Ok false
  /\ extract_custom_rules (PDict [("rules", PList [my_rule; community_rule])])
     = extract_custom_rules (PDict [("rules", PList [my_rule])]).
Proof.
  destruct (untagged_rule_excluded
              [("id", PStr "r2"); ("metadata", PDict [("category", PStr "security")])]
              [("category", PStr "security")] eq_refl eq_refl)
    as [Hfalse [_ Hskip]].
  split; [exact Hfalse |].
  exact (Hskip (PDict [("rules", PList [my_rule; community_rule])])
               (PDict [("rules", PList [my_rule])])
               [my_rule] [] eq_refl eq_refl).
Defined.

(** ** [==] on well-formed values *)

(** Induction on values that reaches inside lists and dicts. *)
Lemma pyval_nested_ind (P : pyval -> Prop) :
  P PNone ->
  (forall b, P (PBool b)) ->
  (forall n, P (PInt n)) ->
  (forall s, P (PStr s)) ->
  (forall xs, (forall x, In x xs -> P x) -> P (PList xs)) ->
  (forall kvs, (forall k v, In (k, v) kvs -> P v) -> P (PDict kvs)) ->
  forall v, P v.
Proof.
  intros HNone HBool HInt HStr HList HDict.
  fix self 1. intros [| b | n | s | xs | kvs].
  - exact HNone.
  - apply HBool.
  - apply HInt.
  - apply HStr.
  - apply HList. induction xs as [| x xs IHxs]; intros y Hy.
    + destruct Hy.
    + destruct Hy as [<- | Hy]; [apply self | now apply IHxs].
  - apply HDict. induction kvs as [| [k v] kvs IHkvs]; intros k' v' Hin.
    + destruct Hin.
    + destruct Hin as [Heq | Hin]; [| now apply (IHkvs k' v')].
      injection Heq as _ <-. apply self.
Qed.

Lemma wf_dict (kvs : list (string * pyval)) :
  wf (PDict kvs) = true ->
  nodup_keys (dict_keys kvs) = true /\ forall k v, In (k, v) kvs -> wf v = true.
Proof.
  cbn [wf]. rewrite andb_true_iff. intros [Hnd Hall]. split; [exact Hnd |].
  clear Hnd. induction kvs as [| [k v] kvs IH]; intros k' v' Hin; [destruct Hin |].
  apply andb_true_iff in Hall. destruct Hall as [Hv Hall].
  destruct Hin as [Heq | Hin]; [injection Heq as _ <-; exact Hv | now apply (IH Hall k')].
Qed.

(** On well-formed values [==] is reflexive: two identical projections are
    never reported. *)
Lemma py_eq_refl (v : pyval) : wf v = true -> py_eq v v = true.
Proof.
  induction v as [| b | n | s | xs IH | kvs IH] using pyval_nested_ind; intros Hwf.
  - reflexivity.
  - apply Bool.eqb_reflx.
  - apply Z.eqb_refl.
  - apply String.eqb_refl.
  - cbn [py_eq wf] in *. induction xs as [| x xs IHxs]; [reflexivity |].
    cbn [forallb] in Hwf. apply andb_true_iff in Hwf. destruct Hwf as [Hx Hxs].
    rewrite (IH x) by (now left || exact Hx). cbn [andb].
    apply IHxs; [| exact Hxs]. intros y Hy. apply IH. now right.
  - destruct (wf_dict kvs Hwf) as [Hnd Hvals]. cbn [py_eq].
    rewrite Nat.eqb_refl. cbn [andb].
    match goal with
    | |- ?all kvs = true =>
        assert (Hall : forall part,
                   (forall k v, In (k, v) part -> In (k, v) kvs) -> all part = true)
    end.
    { induction part as [| [k v] part IHpart]; intros Hsub; [reflexivity |].
      assert (Hin : In (k, v) kvs) by (apply Hsub; now left).
      rewrite (dict_lookup_In kvs k v Hnd Hin).
      rewrite (IH k v Hin (Hvals k v Hin)). cbn [andb].
      apply IHpart. intros k' v' Hin'. apply Hsub. now right. }
    apply Hall. auto.
Qed.

(** [==] does not see the order of the keys of a nested mapping, nor the
    difference between [True] and [1]. *)
Example py_eq_key_order :
  py_eq (PList [PDict [("patterns",
           PList [PDict [("metavariable-regex",
                          PDict [("metavariable", PStr "$X"); ("regex", PStr "^a$")])]])]])
        (PList [PDict [("patterns",
           PList [PDict [("metavariable-regex",
                          PDict [("regex", PStr "^a$"); ("metavariable", PStr "$X")])]])]])
  = true
  /\ py_eq (PBool true) (PInt 1) = true.
Proof. split; reflexivity. Qed.

(** ** The comparator *)




Section ComparatorFacts.

Variable E : env.

(** A rule without a usable reference leaves the world as it is. *)
Lemma compare_rule_no_reference date fields metadata reference w :
  dict_lookup "metadata" fields = Some (PDict metadata) ->
  py_get (PDict metadata) "original-rule" = Ok reference ->
  py_truthy reference = false ->
  compare_rule E date (PDict fields) w = (w, Ok tt).
Proof.
  intros Hmd Hget Hfalsy. unfold compare_rule, bind, lift.
  rewrite (py_getitem_found _ _ _ Hmd), Hget, Hfalsy. reflexivity.
Qed.

(** A rule with a reference: the request, the time stamp, the gate. *)
Lemma compare_rule_comparable date fields metadata id w :
  dict_lookup "metadata" fields = Some (PDict metadata) ->
  dict_lookup "original-rule" metadata = Some id ->
  py_truthy id = true ->
  compare_rule E date (PDict fields) w
  = match registry E id with
    | Raise e => (log_fetch id w, Raise e)
    | Ok original =>
        match last_change E original with
        | Raise e => (log_fetch id w, Raise e)
        | Ok t =>
            if unchanged_since date t
            then (log_fetch id w, Ok tt)
            else compare_patterns E (PDict fields) id original (log_fetch id w)
        end
    end.
Proof.
  intros Hmd Hid Htruthy. unfold compare_rule, bind, lift, get_rule.
  rewrite (py_getitem_found _ _ _ Hmd), (py_get_found _ _ _ Hid), Htruthy.
  rewrite (py_getitem_found _ _ _ Hid).
  destruct (registry E id) as [original | e]; [| reflexivity].
  destruct (last_change E original) as [t | e]; [| reflexivity].
  now destruct (unchanged_since date t).
Qed.

Lemma compare_with_original_app before after date w :
  compare_with_original E (before ++ after) date w
  = match compare_with_original E before date w with
    | (w', Done (Ok _)) => compare_with_original E after date w'
    | (w', Done (Raise e)) => (w', Raise e)
    | (w', Beyond) => (w', Beyond)
    end.
Proof.
  revert w. induction before as [| rule before IH]; intros w; [reflexivity |].
  cbn [app compare_with_original]. unfold bind.
  destruct (compare_rule E date rule w) as [w' [[[] | e] |]];
    [apply IH | reflexivity | reflexivity].
Qed.

(** The gate is open without a cutoff, and with one that is not later than
    the time stamp. *)
Lemma gate_open date t :
  date = None \/ (exists d, date = Some d /\ d <= t) ->
  unchanged_since date t = false.
Proof.
  intros [-> | [d [-> Hd]]]; [reflexivity |].
  cbn [unchanged_since]. now apply Z.ltb_ge.
Qed.

(** A malformed time stamp is one on which line 71 raises. *)
Lemma malformed_stamp_raises original e :
  malformed_stamp E original e <-> last_change E original = Raise e.
Proof.
  unfold last_change, parse_timestamp. split.
  - intros [o Hno | kvs Hnone | kvs v Hv Hns | kvs s Hs Hparse].
    + destruct o as [| | | | | kvs]; try reflexivity.
      now contradiction (Hno kvs).
    + cbn [py_getitem]. now rewrite Hnone.
    + cbn [py_getitem]. rewrite Hv. cbn [rbind].
      destruct v as [| | | s | |]; try reflexivity.
      now contradiction (Hns s).
    + cbn [py_getitem]. rewrite Hs. cbn [rbind]. now rewrite Hparse.
  - destruct original as [| | | | | kvs];
      try (cbn; intros H; injection H as <-; now apply answer_not_a_mapping).
    cbn [py_getitem].
    destruct (dict_lookup "last_change_at" kvs) as [v |] eqn:Hv.
    + cbn [rbind].
      destruct v as [| | | s | |];
        try (intros H; injection H as <-;
             now apply (stamp_not_a_string E kvs _ Hv)).
      destruct (strptime E s) eqn:Hparse; [discriminate |].
      intros H. injection H as <-. now apply (stamp_rejected E kvs s).
    + cbn [rbind]. intros H. injection H as <-. now apply stamp_missing.
Qed.

(** What [compare_patterns] does once both projections are extracted. *)
Lemma compare_patterns_equal rule id original po pc w :
  extract_patterns original = Ok po ->
  extract_patterns rule = Ok pc ->
  py_eq (PList po) (PList pc) = true ->
  compare_patterns E rule id original w = (w, Ok tt).
Proof.
  intros Hpo Hpc Heq. unfold compare_patterns, bind, lift, py_ne.
  now rewrite Hpo, Hpc, Heq.
Qed.

Lemma compare_patterns_differ fields name oid original po pc w :
  extract_patterns original = Ok po ->
  extract_patterns (PDict fields) = Ok pc ->
  py_eq (PList po) (PList pc) = false ->
  dict_lookup "id" fields = Some (PStr name) ->
  has_nul name = false ->
  has_nul oid = false ->
  writable E name = true ->
  writable E oid = true ->
  let d1 := <[file_of E oid := ""]> (<[file_of E name := ""]> (files w)) in
  let d2 := <[file_of E oid
              := overwrite (yaml_dump E po) (default "" (d1 !! file_of E oid))]> d1 in
  let d3 := <[file_of E name
              := overwrite (yaml_dump E pc) (default "" (d2 !! file_of E name))]> d2 in
  compare_patterns E (PDict fields) (PStr oid) original w
  = (World (fetched w) d3
           (stdout w
            ++ [(("Rule ID: " ++ name ++ newline
                  ++ run_stdout E ["diff"; "-U"; "0"; "-b"; name; oid] d3)
                 ++ newline)%string]),
     Ok tt).
Proof.
  intros Hpo Hpc Hne Hname Hn1 Hn2 Hw1 Hw2.
  unfold compare_patterns, bind, lift, py_ne.
  rewrite Hpo, Hpc, Hne. cbn [negb].
  rewrite (py_getitem_found _ _ _ Hname).
  unfold open_w, open_outcome. rewrite Hn1, Hn2, Hw1, Hw2. reflexivity.
Qed.

(** A failure of either extraction is the outcome of the comparison. *)
Lemma compare_patterns_extraction_fails rule id original w :
  (forall e, extract_patterns original = Raise e ->
             compare_patterns E rule id original w = (w, Raise e))
  /\ (forall po e, extract_patterns original = Ok po ->
                   extract_patterns rule = Raise e ->
                   compare_patterns E rule id original w = (w, Raise e)).
Proof.
  split.
  - intros e He. unfold compare_patterns, bind, lift. now rewrite He.
  - intros po e Hpo He. unfold compare_patterns, bind, lift. now rewrite Hpo, He.
Qed.

(** A rule whose well-formed projection is the very projection of its
    original is not reported. *)
Lemma compare_patterns_identical rule id original p w :
  extract_patterns original = Ok p ->
  extract_patterns rule = Ok p ->
  wf (PList p) = true ->
  compare_patterns E rule id original w = (w, Ok tt).
Proof.
  intros Hpo Hpc Hwf.
  apply (compare_patterns_equal rule id original p p); try assumption.
  now apply py_eq_refl.
Qed.

(** C6. A custom rule whose metadata declares no ["original-rule"] is
    skipped silently: the world after it is the world before it, so no
    request was sent, no file written and nothing printed, and the batch
    goes on as if the rule were not there. *)
Theorem fully_custom_rule_skipped date fields metadata w :
  dict_lookup "metadata" fields = Some (PDict metadata) ->
  dict_lookup "original-rule" metadata = None ->
  compare_rule E date (PDict fields) w = (w, Ok tt)
  /\ forall rest,
      compare_with_original E (PDict fields :: rest) date w
      = compare_with_original E rest date w.
Proof.
  intros Hmd Hnone.
  assert (Hskip : compare_rule E date (PDict fields) w = (w, Ok tt)).
  { apply (compare_rule_no_reference date fields metadata PNone);
      [exact Hmd | now apply py_get_missing | reflexivity]. }
  split; [exact Hskip |].
  intros rest. cbn [compare_with_original]. unfold bind at 1.
  now rewrite Hskip.
Qed.

(** C10. A custom rule whose ["original-rule"] is bound to a false value
    (the empty string, [None], ...) is treated as one without the key:
    the world is unchanged, so no request was sent and nothing printed. *)
Theorem falsy_reference_skipped date fields metadata reference w :
  dict_lookup "metadata" fields = Some (PDict metadata) ->
  dict_lookup "original-rule" metadata = Some reference ->
  py_truthy reference = false ->
  compare_rule E date (PDict fields) w = (w, Ok tt)
  /\ forall rest,
      compare_with_original E (PDict fields :: rest) date w
      = compare_with_original E rest date w.
Proof.
  intros Hmd Href Hfalsy.
  assert (Hskip : compare_rule E date (PDict fields) w = (w, Ok tt)).
  { apply (compare_rule_no_reference date fields metadata reference);
      [exact Hmd | now apply py_get_found | exact Hfalsy]. }
  split; [exact Hskip |].
  intros rest. cbn [compare_with_original]. unfold bind at 1.
  now rewrite Hskip.
Qed.

(** C1. For a rule that declares an original whose time stamp reads [t].
    With a cutoff [d] and [t < d] the rule is skipped, whatever its patterns
    and those of the original are: only the request is logged, there is no
    file and no output, and no failure of an extraction can show.  Without
    cutoff, whatever [t] is (and with a cutoff [d <= t]), the patterns are
    extracted and compared: a failing extraction of the original or of the
    rule is raised, equal projections leave the world as the request left
    it, and unequal projections get the report printed. *)
Theorem cutoff_gate fields metadata id original t w :
  dict_lookup "metadata" fields = Some (PDict metadata) ->
  dict_lookup "original-rule" metadata = Some id ->
  py_truthy id = true ->
  registry E id = Ok original ->
  last_change E original = Ok t ->
  (forall d, t < d ->
             compare_rule E (Some d) (PDict fields) w = (log_fetch id w, Ok tt))
  /\ (forall date,
         date = None \/ (exists d, date = Some d /\ d <= t) ->
         (forall e,
             extract_patterns original = Raise e ->
             compare_rule E date (PDict fields) w = (log_fetch id w, Raise e))
         /\ (forall po e,
                extract_patterns original = Ok po ->
                extract_patterns (PDict fields) = Raise e ->
                compare_rule E date (PDict fields) w = (log_fetch id w, Raise e))
         /\ (forall po pc,
                extract_patterns original = Ok po ->
                extract_patterns (PDict fields) = Ok pc ->
                py_eq (PList po) (PList pc) = true ->
                compare_rule E date (PDict fields) w = (log_fetch id w, Ok tt))
         /\ (forall po pc name oid,
                extract_patterns original = Ok po ->
                extract_patterns (PDict fields) = Ok pc ->
                py_eq (PList po) (PList pc) = false ->
                id = PStr oid ->
                dict_lookup "id" fields = Some (PStr name) ->
                has_nul name = false -> has_nul oid = false ->
                writable E name = true -> writable E oid = true ->
                snd (compare_rule E date (PDict fields) w) = Ok tt
                /\ stdout (fst (compare_rule E date (PDict fields) w))
                   = stdout w
                     ++ [(("Rule ID: " ++ name ++ newline
                           ++ run_stdout E ["diff"; "-U"; "0"; "-b"; name; oid]
                                (files (fst (compare_rule E date (PDict fields) w))))
                          ++ newline)%string])).
Proof.
  intros Hmd Hid Htruthy Hfetch Hstamp. split.
  - intros d Hd.
    rewrite (compare_rule_comparable _ fields metadata id w Hmd Hid Htruthy).
    rewrite Hfetch, Hstamp. cbn [unchanged_since].
    assert (Hlt : (t <? d) = true) by now apply Z.ltb_lt.
    now rewrite Hlt.
  - intros date Hdate.
    assert (Hrule : compare_rule E date (PDict fields) w
                    = compare_patterns E (PDict fields) id original (log_fetch id w)).
    { rewrite (compare_rule_comparable _ fields metadata id w Hmd Hid Htruthy).
      now rewrite Hfetch, Hstamp, (gate_open date t Hdate). }
    rewrite Hrule.
    destruct (compare_patterns_extraction_fails (PDict fields) id original
                (log_fetch id w)) as [Ho Hr].
    split; [exact Ho | split; [exact Hr | split]].
    + intros po pc Hpo Hpc Heq. now apply (compare_patterns_equal _ _ _ po pc).
    + intros po pc name oid Hpo Hpc Hne -> Hname Hn1 Hn2 Hw1 Hw2.
      rewrite (compare_patterns_differ fields name oid original po pc
                 (log_fetch (PStr oid) w) Hpo Hpc Hne Hname Hn1 Hn2 Hw1 Hw2).
      split; reflexivity.
Qed.

(** C7. When the request for the original of a rule fails, or the answer
    has no [last_change_at], one that is no string or one that [strptime]
    rejects, the comparator raises that exception: the rules after it are
    not looked at, and the world is the one the earlier rules left, files
    and printed texts included, with only the request added to the log. *)
Theorem failure_aborts_batch before fields metadata id e date w w1 :
  compare_with_original E before date w = (w1, Ok tt) ->
  dict_lookup "metadata" fields = Some (PDict metadata) ->
  dict_lookup "original-rule" metadata = Some id ->
  py_truthy id = true ->
  (registry E id = Raise e
   \/ exists original, registry E id = Ok original /\ malformed_stamp E original e) ->
  forall after,
    compare_with_original E (before ++ PDict fields :: after) date w
    = (log_fetch id w1, Raise e).
Proof.
  intros Hbefore Hmd Hid Htruthy Hfail after.
  rewrite compare_with_original_app, Hbefore.
  cbn [compare_with_original]. unfold bind at 1.
  rewrite (compare_rule_comparable _ fields metadata id w1 Hmd Hid Htruthy).
  destruct Hfail as [Hfetch | [original [Hfetch Hstamp]]].
  - now rewrite Hfetch.
  - apply malformed_stamp_raises in Hstamp. now rewrite Hfetch, Hstamp.
Qed.


End ComparatorFacts.

(** ** Witnesses: the comparator on the sample data *)

Lemma fully_custom_rule_skipped_witness :
  compare_rule sample_env None (PDict home_made_rule_fields) empty_world
  = (empty_world, Ok tt)
  /\ forall rest,
      compare_with_original sample_env
                            (PDict home_made_rule_fields :: rest) None empty_world
      = compare_with_original sample_env rest None empty_world.
Proof.
  exact (fully_custom_rule_skipped
           sample_env None home_made_rule_fields
           [("semgrep.dev", PDict [("rule", PDict [("origin", PStr "custom")])])]
           empty_world eq_refl eq_refl).
Defined.

Lemma falsy_reference_skipped_witness :
  compare_rule sample_env (Some 0) (PDict blank_reference_rule_fields) empty_world
  = (empty_world, Ok tt)
  /\ forall rest,
      compare_with_original sample_env
                            (PDict blank_reference_rule_fields :: rest) (Some 0) empty_world
      = compare_with_original sample_env rest (Some 0) empty_world.
Proof.
  exact (falsy_reference_skipped
           sample_env (Some 0) blank_reference_rule_fields
           [("original-rule", PStr "")] (PStr "")
           empty_world eq_refl eq_refl eq_refl).
Defined.

(** The same rule and original: skipped behind a later cutoff, reported
    without cutoff. *)
Lemma cutoff_gate_witness :
  compare_rule sample_env (Some 1136214246) my_rule empty_world
  = (World [PStr "python.lang.security.foo"] ∅ [], Ok tt)
  /\ snd (compare_rule sample_env None my_rule empty_world) = Ok tt
  /\ stdout (fst (compare_rule sample_env None my_rule empty_world))
     = stdout empty_world
       ++ [(("Rule ID: " ++ "my-rule" ++ newline
             ++ sample_run_stdout
                  ["diff"; "-U"; "0"; "-b"; "my-rule"; "python.lang.security.foo"]
                  (files (fst (compare_rule sample_env None my_rule empty_world))))
            ++ newline)%string].
Proof.
  destruct (cutoff_gate
              sample_env my_rule_fields
              [("semgrep.dev", PDict [("rule", PDict [("origin", PStr "custom")])]);
               ("original-rule", PStr "python.lang.security.foo")]
              (PStr "python.lang.security.foo") registry_foo 1136214245 empty_world
              eq_refl eq_refl eq_refl eq_refl eq_refl)
    as [Hskip Hcompare].
  split; [apply (Hskip 1136214246); lia |].
  destruct (Hcompare None (or_introl eq_refl)) as [_ [_ [_ Hreport]]].
  exact (Hreport
           [PDict [("patterns", PList [PDict [("pattern", PStr "foo($X)")]])]]
           [PDict [("pattern", PStr "foo(...)")]]
           "my-rule" "python.lang.security.foo"
           eq_refl eq_refl eq_refl eq_refl eq_refl eq_refl eq_refl eq_refl eq_refl).
Defined.



(** A request that fails, a time stamp that [strptime] rejects and an
    answer without time stamp, each after a rule that was reported. *)
Lemma failure_aborts_batch_witness :
  let run := compare_with_original wide_env in
  run ([my_rule] ++ PDict orphan_rule_fields :: [PDict home_made_rule_fields])
      None empty_world
  = (log_fetch (PStr "python.lang.gone") (fst (run [my_rule] None empty_world)),
     Raise (RequestException "404 Client Error"))
  /\ run ([my_rule] ++ PDict misdated_rule_fields :: [PDict home_made_rule_fields])
         None empty_world
     = (log_fetch (PStr "python.lang.misdated") (fst (run [my_rule] None empty_world)),
        Raise ValueError)
  /\ run ([my_rule] ++ PDict undated_rule_fields :: [PDict home_made_rule_fields])
         None empty_world
     = (log_fetch (PStr "python.lang.undated") (fst (run [my_rule] None empty_world)),
        Raise KeyError).
Proof.
  cbv zeta. split; [| split].
  - apply (failure_aborts_batch
             wide_env [my_rule] orphan_rule_fields
             [("original-rule", PStr "python.lang.gone")]
             (PStr "python.lang.gone") (RequestException "404 Client Error")
             None empty_world);
      [vm_compute; reflexivity | reflexivity | reflexivity | reflexivity
       | left; reflexivity].
  - apply (failure_aborts_batch
             wide_env [my_rule] misdated_rule_fields
             [("original-rule", PStr "python.lang.misdated")]
             (PStr "python.lang.misdated") ValueError
             None empty_world);
      [vm_compute; reflexivity | reflexivity | reflexivity | reflexivity |].
    right. exists registry_misdated. split; [reflexivity |].
    apply (stamp_rejected wide_env _ "yesterday"); reflexivity.
  - apply (failure_aborts_batch
             wide_env [my_rule] undated_rule_fields
             [("original-rule", PStr "python.lang.undated")]
             (PStr "python.lang.undated") KeyError
             None empty_world);
      [vm_compute; reflexivity | reflexivity | reflexivity | reflexivity |].
    right. exists registry_undated. split; [reflexivity |].
    apply stamp_missing. reflexivity.
Defined.

(** ** Start-up: the token *)

Lemma rstrip_blank (s : string) : blank s = true -> rstrip s = "".
Proof.
  induction s as [| c s IH]; [reflexivity |].
  cbn [blank rstrip]. rewrite andb_true_iff. intros [Hc Hs].
  now rewrite (IH Hs), Hc.
Qed.

Lemma rstrip_app_blank (s ws : string) :
  blank ws = true -> rstrip (s ++ ws) = rstrip s.
Proof.
  intros Hws. induction s as [| c s IH].
  - now apply rstrip_blank.
  - change (String c s ++ ws)%string with (String c (s ++ ws)%string).
    cbn [rstrip]. now rewrite IH.
Qed.

Lemma rstrip_app_kept (p s : string) :
  rstrip s <> "" -> rstrip (p ++ s) = (p ++ rstrip s)%string.
Proof.
  intros Hs. induction p as [| c p IH]; [reflexivity |].
  change (String c p ++ s)%string with (String c (p ++ s)%string).
  change (String c p ++ rstrip s)%string with (String c (p ++ rstrip s)%string).
  cbn [rstrip]. rewrite IH.
  destruct (p ++ rstrip s)%string eqn:E; [| reflexivity].
  destruct p; [| discriminate E]. now contradiction Hs.
Qed.

Lemma split_without_separator (s : string) :
  has_colon_space s = false -> split_colon_space s = [s].
Proof.
  induction s as [| c s IH]; [reflexivity |].
  cbn [has_colon_space split_colon_space].
  destruct s as [| c' s']; [reflexivity |].
  rewrite orb_false_iff. intros [Hsep Hrest].
  now rewrite Hsep, (IH Hrest).
Qed.

Lemma pop_last {A} (xs : list A) (x : A) : pop (xs ++ [x]) = Ok x.
Proof. unfold pop. now rewrite rev_app_distr. Qed.

(** Only the last line that starts with [api_token] is looked at. *)
Lemma token_of_last_line (before after : list string) (line : string) :
  String.prefix "api_token" line = true ->
  forallb (fun l => negb (String.prefix "api_token" l)) after = true ->
  token_of_settings (before ++ line :: after)
  = match split_colon_space (rstrip line) with
    | [_; token] => Ok token
    | _ => Raise ValueError
    end.
Proof.
  intros Hline Hafter. unfold token_of_settings.
  rewrite List.filter_app. cbn [List.filter]. rewrite Hline.
  rewrite (filter_none _ _ Hafter), map_app. cbn [map].
  now rewrite pop_last.
Qed.

(** X1. The start-up ends with [exit()] and the two messages exactly when
    the environment variable is unset and the settings file does not exist;
    a settings file that exists and yields no token never ends this way. *)
Theorem quits_only_without_settings (getenv : option string) (settings : settings_file)
        (printed : list string) :
  discover_token getenv settings = Quit printed
  <-> getenv = None
      /\ settings = NoFile
      /\ printed
         = [("No Semgrep settings found" ++ newline)%string;
            ("No token found - set SEMGREP_APP_TOKEN or use `semgrep login` before running."
             ++ newline)%string].
Proof.
  split.
  - destruct getenv as [token |]; [discriminate |].
    destruct settings as [| e | lines]; cbn [discover_token].
    + intros H. injection H as <-. auto.
    + discriminate.
    + destruct (token_of_settings lines); discriminate.
  - intros [-> [-> ->]]. reflexivity.
Qed.

(** X2. A settings file whose last [api_token] line is ["api_token: "], a
    token and white space gives that token, when the token is not empty,
    does not end in white space and holds no [": "]. *)
Theorem token_read_from_settings (before after : list string) (token trailing : string) :
  forallb (fun l => negb (String.prefix "api_token" l)) after = true ->
  token <> "" ->
  rstrip token = token ->
  has_colon_space token = false ->
  blank trailing = true ->
  discover_token None
    (Lines (before ++ ("api_token: " ++ token ++ trailing)%string :: after))
  = Ready token.
Proof.
  intros Hafter Hne Hkept Hsep Hblank. cbn [discover_token].
  rewrite token_of_last_line; [| reflexivity | exact Hafter].
  assert (Hstrip : rstrip ("api_token: " ++ token ++ trailing)
                   = ("api_token: " ++ token)%string).
  { rewrite (rstrip_app_kept "api_token: " (token ++ trailing)).
    - now rewrite (rstrip_app_blank token trailing Hblank), Hkept.
    - rewrite (rstrip_app_blank token trailing Hblank), Hkept. exact Hne. }
  rewrite Hstrip.
  change (split_colon_space ("api_token: " ++ token))
    with ("api_token" :: split_colon_space token).
  now rewrite (split_without_separator token Hsep).
Qed.

Lemma token_read_from_settings_witness :
  discover_token None
    (Lines ([line_of "has_shown_metrics_notification: true"; line_of "api_token: old"]
            ++ ("api_token: " ++ "0123abcd" ++ newline)%string
            :: [line_of "anonymous_user_id: 7"]))
  = Ready "0123abcd".
Proof.
  apply (token_read_from_settings
           [line_of "has_shown_metrics_notification: true"; line_of "api_token: old"]
           [line_of "anonymous_user_id: 7"]
           "0123abcd" newline);
    [reflexivity | discriminate | reflexivity | reflexivity | reflexivity].
Defined.

(** X3. A settings file that exists and has no line starting with
    [api_token] ends the start-up with an [IndexError] nothing catches. *)
Theorem no_token_line_crashes (lines : list string) :
  forallb (fun l => negb (String.prefix "api_token" l)) lines = true ->
  discover_token None (Lines lines) = Crashed IndexError.
Proof.
  intros Hnone. cbn [discover_token]. unfold token_of_settings.
  now rewrite (filter_none _ _ Hnone).
Qed.

Lemma no_token_line_crashes_witness :
  discover_token None (Lines [line_of "anonymous_user_id: 7"; line_of ""])
  = Crashed IndexError.
Proof.
  apply (no_token_line_crashes [line_of "anonymous_user_id: 7"; line_of ""]).
  reflexivity.
Defined.

(** X4. When the last [api_token] line, stripped, holds no [": "] (another
    separator, or nothing after the colon but white space), the start-up
    ends with a [ValueError] nothing catches. *)
Theorem token_line_without_separator_crashes (before after : list string) (line : string) :
  String.prefix "api_token" line = true ->
  forallb (fun l => negb (String.prefix "api_token" l)) after = true ->
  has_colon_space (rstrip line) = false ->
  discover_token None (Lines (before ++ line :: after)) = Crashed ValueError.
Proof.
  intros Hline Hafter Hsep. cbn [discover_token].
  rewrite (token_of_last_line before after line Hline Hafter).
  now rewrite (split_without_separator _ Hsep).
Qed.

Lemma token_line_without_separator_crashes_witness :
  discover_token None (Lines ([] ++ line_of "api_token: " :: [])) = Crashed ValueError
  /\ discover_token None (Lines ([] ++ "api_token=0123abcd" :: []))
     = Crashed ValueError.
Proof.
  split.
  - apply (token_line_without_separator_crashes [] [] (line_of "api_token: "));
      reflexivity.
  - apply (token_line_without_separator_crashes [] [] "api_token=0123abcd");
      reflexivity.
Defined.

(** X5. Only the last line that starts with [api_token] counts: the lines
    before it and the other lines after it change nothing. *)
Theorem last_token_line_wins (before after : list string) (line : string) :
  String.prefix "api_token" line = true ->
  forallb (fun l => negb (String.prefix "api_token" l)) after = true ->
  discover_token None (Lines (before ++ line :: after))
  = discover_token None (Lines [line]).
Proof.
  intros Hline Hafter. cbn [discover_token].
  rewrite (token_of_last_line before after line Hline Hafter).
  change [line] with ([] ++ line :: []).
  now rewrite (token_of_last_line [] [] line Hline eq_refl).
Qed.

Lemma last_token_line_wins_witness :
  discover_token None
    (Lines ([line_of "api_token: first"] ++ line_of "api_token: second" :: ["x: y"]))
  = discover_token None (Lines [line_of "api_token: second"]).
Proof.
  apply (last_token_line_wins [line_of "api_token: first"] ["x: y"]
           (line_of "api_token: second"));
    reflexivity.
Defined.

(** ** More on [extract_custom_rules] *)

Lemma filter_all {A} (xs : list A) : List.filter (fun _ => true) xs = xs.
Proof. induction xs as [| x xs IH]; [reflexivity | cbn; now rewrite IH]. Qed.

Lemma select_raises {A} (c : A -> result bool) (x : A) (e : exn) (before after : list A) :
  c x = Raise e ->
  (exists e', select c (before ++ x :: after) = Raise e')
  /\ ((forall y, In y before -> exists b, c y = Ok b) ->
      select c (before ++ x :: after) = Raise e).
Proof.
  intros Hx. induction before as [| y before [[e' IH1] IH2]].
  - cbn [app select]. rewrite Hx. split; [now exists e | reflexivity].
  - cbn [app select]. split.
    + destruct (c y) as [b | ey]; [| now exists ey].
      cbn [rbind]. rewrite IH1. now exists e'.
    + intros Hbefore. destruct (Hbefore y) as [b Hb]; [now left |].
      rewrite Hb. cbn [rbind]. rewrite IH2; [reflexivity |].
      intros z Hz. apply Hbefore. now right.
Qed.

(** X6. The filter is idempotent: filtering a rule set made of the rules it
    returned returns them again, all of them and in the same order. *)
Theorem filter_idempotent (config config' : pyval) (out : list pyval) :
  extract_custom_rules config = Ok out ->
  py_getitem config' "rules" = Ok (PList out) ->
  extract_custom_rules config' = Ok out.
Proof.
  intros Hout Hconfig'. unfold extract_custom_rules in *.
  destruct (py_getitem config "rules") as [listed |]; [| discriminate Hout].
  cbn [rbind] in Hout.
  destruct (py_iter listed) as [items |]; [| discriminate Hout].
  cbn [rbind] in Hout.
  rewrite Hconfig'. cbn [rbind py_iter].
  rewrite (select_pure rule_is_custom (fun _ => true) out).
  - now rewrite filter_all.
  - intros rule Hin. exact (select_In _ _ _ Hout rule Hin).
Qed.

Lemma filter_idempotent_witness :
  extract_custom_rules (PDict [("rules", PList [my_rule])]) = Ok [my_rule].
Proof.
  exact (filter_idempotent
           (PDict [("rules", PList [community_rule; my_rule; origin_only_rule])])
           (PDict [("rules", PList [my_rule])]) [my_rule] eq_refl eq_refl).
Defined.

(** X7. One rule on which the test of the filter raises makes the whole
    filter raise, wherever it stands in the rule set and whatever the other
    rules are; when the rules before it are fine, the filter raises the
    exception of that rule. *)
Theorem one_bad_rule_fails_the_filter (config rule : pyval) (e : exn)
        (before after : list pyval) :
  rule_is_custom rule = Raise e ->
  py_getitem config "rules" = Ok (PList (before ++ rule :: after)) ->
  (exists e', extract_custom_rules config = Raise e')
  /\ ((forall r, In r before -> exists b, rule_is_custom r = Ok b) ->
      extract_custom_rules config = Raise e).
Proof.
  intros Hrule Hconfig. unfold extract_custom_rules.
  rewrite Hconfig. cbn [rbind py_iter].
  exact (select_raises rule_is_custom rule e before after Hrule).
Qed.

Lemma one_bad_rule_fails_the_filter_witness :
  extract_custom_rules (PDict [("rules", PList ([my_rule] ++ bare_rule :: [community_rule]))])
  = Raise KeyError.
Proof.
  destruct (one_bad_rule_fails_the_filter
              (PDict [("rules", PList ([my_rule] ++ bare_rule :: [community_rule]))])
              bare_rule KeyError [my_rule] [community_rule] eq_refl eq_refl)
    as [_ Hraise].
  apply Hraise. intros r [<- | []]. now exists true.
Defined.

(** ** More on [extract_patterns] *)

(** X8. [extract_patterns] returns a projection exactly on the records of
    one of the two shapes; on every other value it raises. *)
Theorem extraction_succeeds_iff_shape (rule : pyval) :
  (exists p, extract_patterns rule = Ok p) <-> (exists fields, rule_shape rule fields).
Proof.
  split.
  - intros [p Hp]. unfold extract_patterns in Hp.
    destruct rule as [| | | | | fields]; try discriminate Hp.
    cbn [py_get] in Hp.
    destruct (dict_lookup "definition" fields) as [d |] eqn:Hd;
      [| exists fields; now apply custom_shape].
    cbn [rbind] in Hp. destruct (py_truthy d) eqn:Htruthy;
      [| exists fields; now apply (custom_shape_falsy fields d)].
    rewrite (py_getitem_found _ _ _ Hd) in Hp. cbn [rbind] in Hp.
    destruct d as [| | | | | wrapper]; try discriminate Hp.
    cbn [py_getitem] in Hp.
    destruct (dict_lookup "rules" wrapper) as [nested |] eqn:Hn; [| discriminate Hp].
    cbn [rbind] in Hp.
    destruct nested as [| | | s | [| first others] | kvs]; try discriminate Hp.
    + destruct s; discriminate Hp.
    + cbn [py_first rbind] in Hp.
      destruct first as [| | | | | inner]; try discriminate Hp.
      exists inner. now apply (registry_shape fields wrapper inner others).
  - intros [fields Hshape].
    rewrite (extract_patterns_shape rule fields Hshape).
    destruct (wrap_fields_total fields (List.filter is_pattern_key (dict_keys fields)))
      as [p [Hp _]].
    + intros k Hk. apply filter_In in Hk. tauto.
    + now exists p.
Qed.

(** ** What a batch does to the world *)

Lemma prefix_app (p s : string) : String.prefix p (p ++ s) = true.
Proof.
  induction p as [| a p IH].
  - now destruct s.
  - change (String a p ++ s)%string with (String a (p ++ s)%string).
    cbn [String.prefix]. now destruct (ascii_dec a a).
Qed.

Lemma append_assoc (a b c : string) : ((a ++ b) ++ c = a ++ (b ++ c))%string.
Proof.
  induction a as [| x a IH]; [reflexivity |].
  change (String x ((a ++ b) ++ c)%string = String x (a ++ (b ++ c))%string).
  now rewrite IH.
Qed.

(** What [open] opened is the file its name stands for. *)
Lemma open_outcome_file (E : env) (p : pyval) (f : string) :
  open_outcome E p = Ok f -> exists name, p = PStr name /\ f = file_of E name.
Proof.
  unfold open_outcome. destruct p as [| | | name | |]; try discriminate.
  destruct (has_nul name); [discriminate |].
  destruct (writable E name); [| discriminate].
  intros H. injection H as <-. now exists name.
Qed.

(** The comparison of one rule: no request, at most one text printed, and
    no file touched but those the two identifiers stand for. *)
Lemma compare_patterns_effect (E : env) (rule id original : pyval) (w : world) :
  fetched (fst (compare_patterns E rule id original w)) = fetched w
  /\ (exists extra,
         stdout (fst (compare_patterns E rule id original w)) = stdout w ++ extra
         /\ (length extra <= 1)%nat
         /\ report_texts extra)
  /\ (forall f,
         (forall name, py_getitem rule "id" = Ok (PStr name) -> file_of E name <> f) ->
         (forall oid, id = PStr oid -> file_of E oid <> f) ->
         files (fst (compare_patterns E rule id original w)) !! f = files w !! f).
Proof.
  assert (Hquiet : exists extra, stdout w = stdout w ++ extra
                                 /\ (length extra <= 1)%nat /\ report_texts extra).
  { exists []. rewrite app_nil_r. repeat split; [cbn; lia | constructor]. }
  unfold compare_patterns, bind, lift, ret, py_ne.
  destruct (extract_patterns original) as [po |]; [| cbn [fst]; auto].
  destruct (extract_patterns rule) as [pc |]; [| cbn [fst]; auto].
  destruct (py_eq (PList po) (PList pc)); cbn [negb]; [cbn [fst]; auto |].
  destruct (py_getitem rule "id") as [idv |]; [| cbn [fst]; auto].
  unfold open_w.
  destruct (open_outcome E idv) as [[f1 | e1] |] eqn:H1; try (cbn [fst]; now auto).
  destruct (open_outcome_file E idv f1 H1) as [name [-> ->]].
  cbn [fetched files stdout].
  assert (Hfirst : forall f,
             (forall n, Ok (A:=pyval) (PStr name) = Ok (PStr n) -> file_of E n <> f) ->
             (<[file_of E name := ""]> (files w) : gmap string string) !! f
             = files w !! f).
  { intros f Hf. apply lookup_insert_ne. now apply Hf. }
  destruct (open_outcome E id) as [[f2 | e2] |] eqn:H2;
    try (cbn [fst fetched files stdout]; split; [reflexivity | split];
         [exact Hquiet | intros f Hf _; now apply Hfirst]).
  destruct (open_outcome_file E id f2 H2) as [oid [-> ->]].
  unfold dump_to, run, print. cbn [argument fst fetched files stdout].
  split; [reflexivity | split].
  - eexists. split; [reflexivity |]. split; [cbn; lia |].
    constructor; [| constructor].
    rewrite append_assoc. apply prefix_app.
  - intros f Hf1 Hf2.
    assert (Hn : file_of E name <> f) by now apply Hf1.
    assert (Ho : file_of E oid <> f) by now apply Hf2.
    rewrite lookup_insert_ne by exact Hn.
    rewrite lookup_insert_ne by exact Ho.
    rewrite lookup_insert_ne by exact Ho.
    now rewrite lookup_insert_ne by exact Hn.
Qed.

Lemma names_file_false (E : env) (f : string) (rule : pyval) :
  names_file E f rule = false ->
  (forall name, py_getitem rule "id" = Ok (PStr name) -> file_of E name <> f)
  /\ (forall oid, reference rule = Some (PStr oid) -> file_of E oid <> f).
Proof.
  unfold names_file. rewrite orb_false_iff. intros [Hid Href]. split.
  - intros name Heq Hf. rewrite Heq, Hf in Hid. now rewrite String.eqb_refl in Hid.
  - intros oid Heq Hf. rewrite Heq, Hf in Href. now rewrite String.eqb_refl in Href.
Qed.

(** One turn of the loop: a request exactly when the rule has a reference,
    at most one text printed and only after a request, and no file touched
    but those the two identifiers stand for. *)
Lemma compare_rule_effect (E : env) (date : option datetime) (rule : pyval) (w : world) :
  fetched (fst (compare_rule E date rule w)) = fetched w ++ request_of rule
  /\ (exists extra,
         stdout (fst (compare_rule E date rule w)) = stdout w ++ extra
         /\ (length extra <= length (request_of rule))%nat
         /\ report_texts extra)
  /\ (forall f,
         names_file E f rule = false ->
         files (fst (compare_rule E date rule w)) !! f = files w !! f).
Proof.
  assert (Hquiet : forall ids : list pyval,
             exists extra, stdout w = stdout w ++ extra
                           /\ (length extra <= length ids)%nat /\ report_texts extra).
  { intros ids. exists []. rewrite app_nil_r. repeat split; [cbn; lia | constructor]. }
  assert (Hframe : forall f, names_file E f rule = false ->
             (forall name, py_getitem rule "id" = Ok (PStr name) -> file_of E name <> f)
             /\ (forall oid, reference rule = Some (PStr oid) -> file_of E oid <> f))
    by (intros f; apply names_file_false).
  revert Hframe. unfold compare_rule, request_of, reference, bind, lift, ret, get_rule.
  destruct (py_getitem rule "metadata") as [metadata |];
    [| intros _; cbn [fst]; rewrite app_nil_r; auto].
  destruct (py_get metadata "original-rule") as [r |] eqn:Hget;
    [| intros _; cbn [fst]; rewrite app_nil_r; auto].
  destruct (py_truthy r) eqn:Htruthy;
    [| intros _; cbn [fst]; rewrite app_nil_r; auto].
  assert (Hitem : py_getitem metadata "original-rule" = Ok r).
  { destruct metadata as [| | | | | kvs]; try discriminate Hget.
    cbn [py_get py_getitem] in *.
    destruct (dict_lookup "original-rule" kvs); [exact Hget |].
    injection Hget as <-. discriminate Htruthy. }
  rewrite Hitem. intros Hframe.
  assert (Hlogged : forall res : outcome unit,
             fetched (fst (log_fetch r w, res)) = fetched w ++ [r]
             /\ (exists extra,
                    stdout (fst (log_fetch r w, res)) = stdout w ++ extra
                    /\ (length extra <= length [r])%nat /\ report_texts extra)
             /\ (forall f, names_file E f rule = false ->
                           files (fst (log_fetch r w, res)) !! f = files w !! f)).
  { intros res. cbn [fst log_fetch fetched stdout files]. auto. }
  destruct (registry E r) as [original | e]; [| apply Hlogged].
  destruct (last_change E original) as [t | e]; [| apply Hlogged].
  destruct (unchanged_since date t); [apply Hlogged |].
  destruct (compare_patterns_effect E rule r original (log_fetch r w))
    as [Hf [[extra [Hs [Hlen Htexts]]] Hfiles]].
  cbn [log_fetch fetched stdout files] in Hf, Hs, Hfiles.
  split; [exact Hf | split].
  - exists extra. auto.
  - intros f Hf'. destruct (Hframe f Hf') as [Hid Href].
    apply Hfiles; [exact Hid |]. intros oid ->. now apply Href.
Qed.

(** A batch, however it ends: the rules it went through are a prefix of
    the batch, all of it when it ends without exception. *)
Lemma batch_effect (E : env) (date : option datetime) (rules : list pyval) (w : world) :
  exists n,
    (n <= length rules)%nat
    /\ (snd (compare_with_original E rules date w) = Ok tt -> n = length rules)
    /\ fetched (fst (compare_with_original E rules date w))
       = fetched w ++ flat_map request_of (firstn n rules)
    /\ (exists extra,
           stdout (fst (compare_with_original E rules date w)) = stdout w ++ extra
           /\ (length extra <= length (flat_map request_of (firstn n rules)))%nat
           /\ report_texts extra)
    /\ (forall f,
           forallb (fun rule => negb (names_file E f rule)) rules = true ->
           files (fst (compare_with_original E rules date w)) !! f = files w !! f).
Proof.
  revert w. induction rules as [| rule rules IH]; intros w.
  - exists 0%nat. cbn. rewrite !app_nil_r. repeat split; auto.
    exists []. rewrite app_nil_r. repeat split; [cbn; lia | constructor].
  - destruct (compare_rule_effect E date rule w)
      as [Hf [[extra [Hs [Hlen Htexts]]] Hfiles]].
    cbn [compare_with_original]. unfold bind.
    destruct (compare_rule E date rule w) as [w1 [[[] | e] |]] eqn:Hrule;
      cbn [fst] in Hf, Hs, Hfiles.
    + destruct (IH w1) as [n [Hn [Hdone [Hf' [[extra' [Hs' [Hlen' Htexts']]] Hfiles']]]]].
      exists (S n). cbn [length firstn flat_map].
      split; [lia | split; [intros Hok; f_equal; now apply Hdone | split; [| split]]].
      * rewrite Hf', Hf. now rewrite <- app_assoc.
      * exists (extra ++ extra'). rewrite Hs', Hs, <- app_assoc.
        split; [reflexivity | split].
        -- rewrite !length_app. lia.
        -- now apply Forall_app.
      * intros f Hp. cbn [forallb] in Hp. apply andb_true_iff in Hp.
        destruct Hp as [Hrule_p Hrest].
        rewrite (Hfiles' f Hrest). apply Hfiles. now apply negb_true_iff.
    + exists 1%nat. cbn [length firstn flat_map fst snd]. rewrite app_nil_r.
      split; [lia | split; [discriminate | split; [exact Hf | split]]].
      * exists extra. auto.
      * intros f Hp. cbn [forallb] in Hp. apply andb_true_iff in Hp.
        apply Hfiles. apply negb_true_iff. tauto.
    + exists 1%nat. cbn [length firstn flat_map fst snd]. rewrite app_nil_r.
      split; [lia | split; [discriminate | split; [exact Hf | split]]].
      * exists extra. auto.
      * intros f Hp. cbn [forallb] in Hp. apply andb_true_iff in Hp.
        apply Hfiles. apply negb_true_iff. tauto.
Qed.

(** X9. A batch that ends without an exception has sent one request for
    each rule with a true ["original-rule"], in the order of the rules and
    whatever the cutoff is: the cutoff spares no request. *)
Theorem one_request_per_reference (E : env) (date : option datetime)
        (rules : list pyval) (w : world) :
  snd (compare_with_original E rules date w) = Ok tt ->
  fetched (fst (compare_with_original E rules date w))
  = fetched w ++ flat_map request_of rules.
Proof.
  intros Hok.
  destruct (batch_effect E date rules w) as [n [_ [Hdone [Hf _]]]].
  rewrite Hf, (Hdone Hok). now rewrite firstn_all.
Qed.

Lemma one_request_per_reference_witness :
  fetched (fst (compare_with_original sample_env
                  [PDict home_made_rule_fields; my_rule; PDict blank_reference_rule_fields;
                   my_rule]
                  (Some 1136214246) empty_world))
  = [PStr "python.lang.security.foo"; PStr "python.lang.security.foo"].
Proof.
  apply (one_request_per_reference sample_env (Some 1136214246)
           [PDict home_made_rule_fields; my_rule; PDict blank_reference_rule_fields;
            my_rule] empty_world).
  vm_compute. reflexivity.
Defined.

(** X10. As long as no rule makes [open] adopt a descriptor, and whether
    the batch ends or raises, the texts handed to [print] before it are
    kept, every text it hands to [print] is a report (it begins with
    ["Rule ID: "]), and there is at most one of them per request sent. *)
Theorem printed_texts_only_grow (E : env) (date : option datetime)
        (rules : list pyval) (w : world) :
  snd (compare_with_original E rules date w) <> Beyond ->
  exists extra,
    stdout (fst (compare_with_original E rules date w)) = stdout w ++ extra
    /\ report_texts extra
    /\ (length (fetched w) + length extra
        <= length (fetched (fst (compare_with_original E rules date w))))%nat.
Proof.
  intros _.
  destruct (batch_effect E date rules w)
    as [n [_ [_ [Hf [[extra [Hs [Hlen Htexts]]] _]]]]].
  exists extra. split; [exact Hs | split; [exact Htexts |]].
  rewrite Hf, length_app. lia.
Qed.

Lemma printed_texts_only_grow_witness :
  exists extra,
    stdout (fst (compare_with_original wide_env
                   [my_rule; PDict reordered_rule_fields; PDict misdated_rule_fields;
                    my_rule]
                   None (World [] ∅ ["earlier text"])))
    = ["earlier text"] ++ extra
    /\ report_texts extra
    /\ (0 + length extra
        <= length (fetched (fst (compare_with_original wide_env
                                   [my_rule; PDict reordered_rule_fields;
                                    PDict misdated_rule_fields; my_rule]
                                   None (World [] ∅ ["earlier text"])))))%nat.
Proof.
  apply (printed_texts_only_grow wide_env None
           [my_rule; PDict reordered_rule_fields; PDict misdated_rule_fields; my_rule]
           (World [] ∅ ["earlier text"])).
  vm_compute. discriminate.
Defined.

(** X11. As long as no rule makes [open] adopt a descriptor, and whether
    the batch ends or raises, it creates, truncates or writes through
    [open] no file but those that the identifier of a rule of the batch or
    the reference of one stands for: every other file is left as it was. *)
Theorem writes_only_named_files (E : env) (date : option datetime)
        (rules : list pyval) (w : world) (f : string) :
  snd (compare_with_original E rules date w) <> Beyond ->
  forallb (fun rule => negb (names_file E f rule)) rules = true ->
  files (fst (compare_with_original E rules date w)) !! f = files w !! f.
Proof.
  intros _ Hf.
  destruct (batch_effect E date rules w) as [n [_ [_ [_ [_ Hfiles]]]]].
  now apply Hfiles.
Qed.

Lemma writes_only_named_files_witness :
  files (fst (compare_with_original dotted_env [my_rule; PDict orphan_rule_fields] None
                (World [] (<["sast.json" := "{}"]> ∅) [])))
  !! "sast.json"
  = Some "{}".
Proof.
  rewrite (writes_only_named_files dotted_env None [my_rule; PDict orphan_rule_fields]
             (World [] (<["sast.json" := "{}"]> ∅) []) "sast.json");
    [reflexivity | vm_compute; discriminate | reflexivity].
Defined.

Lemma behind_cutoff_step (E : env) (d : datetime) (rule : pyval) (w : world) :
  behind_cutoff E d rule = true ->
  compare_rule E (Some d) rule w
  = (World (fetched w ++ request_of rule) (files w) (stdout w), Ok tt).
Proof.
  unfold behind_cutoff, request_of, reference, compare_rule, bind, lift, ret, get_rule.
  destruct (py_getitem rule "metadata") as [[| | | | | metadata] |]; try discriminate.
  cbn [py_get py_getitem].
  destruct (dict_lookup "original-rule" metadata) as [r |].
  - destruct (py_truthy r).
    + destruct (registry E r) as [original |]; [| discriminate].
      destruct (last_change E original) as [t |]; [| discriminate].
      cbn [unchanged_since]. now intros ->.
    + intros _. rewrite app_nil_r. now destruct w.
  - cbn [py_truthy]. intros _. rewrite app_nil_r. now destruct w.
Qed.

(** X12. With a cutoff later than the last change of every original the
    rules refer to, the batch ends without an exception, writes no file and
    prints nothing, and still has sent every request. *)
Theorem late_cutoff_silences_batch (E : env) (d : datetime) (rules : list pyval)
        (w : world) :
  forallb (behind_cutoff E d) rules = true ->
  compare_with_original E rules (Some d) w
  = (World (fetched w ++ flat_map request_of rules) (files w) (stdout w), Ok tt).
Proof.
  revert w. induction rules as [| rule rules IH]; intros w Hall.
  - cbn. rewrite app_nil_r. now destruct w.
  - cbn [forallb] in Hall. apply andb_true_iff in Hall. destruct Hall as [Hrule Hrest].
    cbn [compare_with_original flat_map]. unfold bind.
    rewrite (behind_cutoff_step E d rule w Hrule), (IH _ Hrest).
    cbn [fetched files stdout]. now rewrite <- app_assoc.
Qed.

Lemma late_cutoff_silences_batch_witness :
  compare_with_original sample_env [my_rule; PDict home_made_rule_fields; my_rule]
                        (Some 1136214246) empty_world
  = (World [PStr "python.lang.security.foo"; PStr "python.lang.security.foo"] ∅ [],
     Ok tt).
Proof.
  exact (late_cutoff_silences_batch sample_env 1136214246
           [my_rule; PDict home_made_rule_fields; my_rule] empty_world eq_refl).
Defined.

(** X13. A rule whose projection is the very projection of its original is
    not reported, with or without cutoff: the request is all that
    happens. *)
Theorem unchanged_copy_is_silent (E : env) (date : option datetime)
        (fields metadata : list (string * pyval)) (id original : pyval)
        (t : datetime) (p : list pyval) (w : world) :
  dict_lookup "metadata" fields = Some (PDict metadata) ->
  dict_lookup "original-rule" metadata = Some id ->
  py_truthy id = true ->
  registry E id = Ok original ->
  last_change E original = Ok t ->
  extract_patterns original = Ok p ->
  extract_patterns (PDict fields) = Ok p ->
  wf (PList p) = true ->
  compare_rule E date (PDict fields) w = (log_fetch id w, Ok tt).
Proof.
  intros Hmd Hid Htruthy Hfetch Hstamp Hpo Hpc Hwf.
  rewrite (compare_rule_comparable E date fields metadata id w Hmd Hid Htruthy).
  rewrite Hfetch, Hstamp.
  destruct (unchanged_since date t); [reflexivity |].
  now apply (compare_patterns_identical E (PDict fields) id original p).
Qed.

Lemma unchanged_copy_is_silent_witness :
  compare_rule sample_env None (PDict faithful_copy_fields) empty_world
  = (World [PStr "python.lang.security.foo"] ∅ [], Ok tt).
Proof.
  exact (unchanged_copy_is_silent sample_env None faithful_copy_fields
           [("original-rule", PStr "python.lang.security.foo")]
           (PStr "python.lang.security.foo") registry_foo 1136214245
           [PDict [("patterns", PList [PDict [("pattern", PStr "foo($X)")]])]]
           empty_world eq_refl eq_refl eq_refl eq_refl eq_refl eq_refl eq_refl eq_refl).
Defined.

(** ** Edge cases of a report *)



(** X15. The identifier of a rule is read only when a difference is found:
    a rule without ["id"] raises [KeyError] when its projection differs from
    that of its original, before any file is opened or anything is printed,
    and passes unnoticed when the projections are equal. *)
Theorem missing_id_raises_only_on_difference (E : env) (fields : list (string * pyval))
        (id original : pyval) (po pc : list pyval) (w : world) :
  extract_patterns original = Ok po ->
  extract_patterns (PDict fields) = Ok pc ->
  dict_lookup "id" fields = None ->
  compare_patterns E (PDict fields) id original w
  = (w, if py_eq (PList po) (PList pc) then Ok tt else Raise KeyError).
Proof.
  intros Hpo Hpc Hid. unfold compare_patterns, bind, lift, ret, py_ne.
  rewrite Hpo, Hpc.
  destruct (py_eq (PList po) (PList pc)); cbn [negb]; [reflexivity |].
  unfold py_getitem. now rewrite Hid.
Qed.

Lemma missing_id_raises_only_on_difference_witness :
  compare_patterns sample_env (PDict nameless_fields) (PStr "python.lang.security.foo")
                   registry_foo empty_world
  = (empty_world, Raise KeyError).
Proof.
  exact (missing_id_raises_only_on_difference sample_env nameless_fields
           (PStr "python.lang.security.foo") registry_foo
           [PDict [("patterns", PList [PDict [("pattern", PStr "foo($X)")]])]]
           [PDict [("pattern", PStr "foo(...)")]]
           empty_world eq_refl eq_refl eq_refl).
Defined.

(** X16. When a difference is found and the file of the rule is opened but
    the opening of the file of the original raises ([OSError] for a name the
    file system refuses, [ValueError] for a name that holds the character
    of code 0, [TypeError] for a reference that is no name), that exception
    is raised with the file of the rule left created and empty; nothing is
    dumped, [diff] is not run and nothing is printed. *)
Theorem failed_second_open_leaves_empty_file (E : env) (fields : list (string * pyval))
        (name : string) (id original : pyval) (e : exn) (po pc : list pyval)
        (w : world) :
  extract_patterns original = Ok po ->
  extract_patterns (PDict fields) = Ok pc ->
  py_eq (PList po) (PList pc) = false ->
  dict_lookup "id" fields = Some (PStr name) ->
  has_nul name = false ->
  writable E name = true ->
  open_outcome E id = Raise e ->
  compare_patterns E (PDict fields) id original w
  = (World (fetched w) (<[file_of E name := ""]> (files w)) (stdout w), Raise e).
Proof.
  intros Hpo Hpc Hne Hname Hn Hw1 Hrefused.
  unfold compare_patterns, bind, lift, ret, py_ne.
  rewrite Hpo, Hpc, Hne. cbn [negb].
  rewrite (py_getitem_found _ _ _ Hname).
  unfold open_w. rewrite Hrefused.
  unfold open_outcome. now rewrite Hn, Hw1.
Qed.

Lemma failed_second_open_leaves_empty_file_witness :
  compare_patterns guarded_env my_rule (PStr "python.lang.security.foo")
                   registry_foo empty_world
  = (World [] (<["my-rule" := ""]> ∅) [], Raise OSError)
  /\ compare_patterns sample_env my_rule (PStr nul_name) registry_foo empty_world
     = (World [] (<["my-rule" := ""]> ∅) [], Raise ValueError)
  /\ compare_patterns sample_env my_rule (PList [PStr "python.lang.security.foo"])
                      registry_foo empty_world
     = (World [] (<["my-rule" := ""]> ∅) [], Raise TypeError).
Proof.
  split; [| split].
  - exact (failed_second_open_leaves_empty_file guarded_env my_rule_fields
             "my-rule" (PStr "python.lang.security.foo") registry_foo OSError
             [PDict [("patterns", PList [PDict [("pattern", PStr "foo($X)")]])]]
             [PDict [("pattern", PStr "foo(...)")]]
             empty_world eq_refl eq_refl eq_refl eq_refl eq_refl eq_refl eq_refl).
  - exact (failed_second_open_leaves_empty_file sample_env my_rule_fields
             "my-rule" (PStr nul_name) registry_foo ValueError
             [PDict [("patterns", PList [PDict [("pattern", PStr "foo($X)")]])]]
             [PDict [("pattern", PStr "foo(...)")]]
             empty_world eq_refl eq_refl eq_refl eq_refl eq_refl eq_refl eq_refl).
  - exact (failed_second_open_leaves_empty_file sample_env my_rule_fields
             "my-rule" (PList [PStr "python.lang.security.foo"]) registry_foo TypeError
             [PDict [("patterns", PList [PDict [("pattern", PStr "foo($X)")]])]]
             [PDict [("pattern", PStr "foo(...)")]]
             empty_world eq_refl eq_refl eq_refl eq_refl eq_refl eq_refl eq_refl).
Defined.

(** X17. A batch can be cut anywhere: running [before ++ after] is running
    [before] and then, unless it raised, [after] in the world it left. *)
Theorem batch_in_two_parts (E : env) (date : option datetime)
        (before after : list pyval) (w : world) :
  compare_with_original E (before ++ after) date w
  = match compare_with_original E before date w with
    | (w', Done (Ok _)) => compare_with_original E after date w'
    | (w', Done (Raise e)) => (w', Raise e)
    | (w', Beyond) => (w', Beyond)
    end.
Proof. exact (compare_with_original_app E before after date w). Qed.

(** ** The entry point *)

Lemma report_error_effect (C : cli) (e : exn) (w : world) :
  exists text,
    report_error C e w = (World (fetched w) (files w) (stdout w ++ [text]), Ok tt)
    /\ error_texts [text].
Proof.
  unfold report_error, print, error_texts.
  destruct e; eexists; (split; [reflexivity |]);
    (constructor; [| constructor]); rewrite append_assoc;
    solve [right; apply prefix_app | left; apply prefix_app].
Qed.

(** X18. Once the date is accepted, and as long as no rule makes [open]
    adopt a descriptor, the entry point does not raise: whatever the loading
    of the rule file, the filter or the comparator raise is turned into one
    message handed to [print], after the reports already handed to it. *)
Theorem main_reports_every_failure (E : env) (C : cli) (arg_date : option string)
        (sast : result pyval) (date : option datetime) (w : world) :
  cutoff_of C arg_date = Ok date ->
  snd (main E C arg_date sast w) <> Beyond ->
  snd (main E C arg_date sast w) = Ok tt
  /\ exists reports errors,
      stdout (fst (main E C arg_date sast w)) = stdout w ++ reports ++ errors
      /\ report_texts reports
      /\ error_texts errors
      /\ (length errors <= 1)%nat
      /\ (errors = []
          <-> exists rules,
              (config <- sast ;; extract_custom_rules config) = Ok rules
              /\ snd (compare_with_original E rules date w) = Ok tt).
Proof.
  intros Hdate. unfold main. rewrite Hdate. unfold bind, lift.
  destruct (config <- sast ;; extract_custom_rules config) as [rules | e].
  - destruct (batch_effect E date rules w)
      as [n [_ [_ [_ [[reports [Hs [_ Htexts]]] _]]]]].
    destruct (compare_with_original E rules date w) as [w1 [[[] | e] |]] eqn:Hrun;
      cbn [fst] in Hs.
    + intros _. split; [reflexivity |]. exists reports, []. cbn [fst].
      rewrite app_nil_r.
      split; [exact Hs | split; [exact Htexts | split; [constructor | split]]].
      * cbn; lia.
      * split; [intros _ | reflexivity].
        exists rules. split; [reflexivity | now rewrite Hrun].
    + intros _. destruct (report_error_effect C e w1) as [text [-> Herr]].
      split; [reflexivity |]. exists reports, [text]. cbn [fst stdout].
      rewrite Hs, <- app_assoc.
      split; [reflexivity | split; [exact Htexts | split; [exact Herr | split]]].
      * cbn; lia.
      * split; [discriminate |].
        intros [rules' [Hrules' Hok]]. injection Hrules' as <-.
        rewrite Hrun in Hok. discriminate Hok.
    + intros Habs. now contradiction Habs.
  - intros _. destruct (report_error_effect C e w) as [text [-> Herr]].
    split; [reflexivity |]. exists [], [text]. cbn [fst stdout app].
    split; [reflexivity | split; [constructor | split; [exact Herr | split]]].
    + cbn; lia.
    + split; [discriminate |].
      intros [rules' [Hrules' _]]. discriminate Hrules'.
Qed.

(** A batch in which the second rule refers to an original the registry
    lacks: the report of the first rule, then the message. *)
Lemma main_reports_every_failure_witness :
  stdout (fst (main sample_env sample_cli None
                 (Ok (PDict [("rules", PList [my_rule; PDict custom_orphan_fields;
                                              my_rule])]))
                 empty_world))
  = stdout (fst (compare_with_original sample_env [my_rule] None empty_world))
    ++ [("An HTTP error occurred: 404 Client Error" ++ newline)%string]
  /\ snd (main sample_env sample_cli None
            (Ok (PDict [("rules", PList [my_rule; PDict custom_orphan_fields;
                                         my_rule])]))
            empty_world)
     = Ok tt.
Proof.
  split; [vm_compute; reflexivity |].
  apply (main_reports_every_failure sample_env sample_cli None
           (Ok (PDict [("rules", PList [my_rule; PDict custom_orphan_fields; my_rule])]))
           None empty_world eq_refl).
  vm_compute. discriminate.
Defined.

(** X19. A [--date] that is not empty and that [strptime] rejects raises
    [ValueError] outside the handlers of the entry point: the rule file is
    not looked at, no request is sent and nothing is printed. *)
Theorem malformed_date_raises_first (E : env) (C : cli) (text : string)
        (sast : result pyval) (w : world) :
  text <> "" ->
  parse_date C text = None ->
  main E C (Some text) sast w = (w, Raise ValueError).
Proof.
  intros Hne Hparse. unfold main, cutoff_of. cbn [py_truthy].
  destruct (String.eqb_spec text "") as [-> | _]; [now contradiction Hne |].
  cbn [negb]. now rewrite Hparse.
Qed.

Lemma malformed_date_raises_first_witness :
  main sample_env sample_cli (Some "03/01/2006")
       (Ok (PDict [("rules", PList [my_rule])])) empty_world
  = (empty_world, Raise ValueError).
Proof.
  apply (malformed_date_raises_first sample_env sample_cli "03/01/2006");
    [discriminate | reflexivity].
Defined.

(** X20. There is no cutoff exactly when [--date] is absent or empty: an
    empty date is not an error, it is no date. *)
Theorem no_cutoff_iff_no_date (C : cli) (arg_date : option string) :
  cutoff_of C arg_date = Ok None <-> arg_date = None \/ arg_date = Some "".
Proof.
  unfold cutoff_of. destruct arg_date as [text |]; [| tauto].
  cbn [py_truthy]. destruct (String.eqb_spec text "") as [-> | Hne]; cbn [negb].
  - tauto.
  - split.
    + destruct (parse_date C text); discriminate.
    + intros [Hnone | Hsome]; [discriminate Hnone |].
      injection Hsome as ->. now contradiction Hne.
Qed.

(** X21. When no rule of a readable rule set has the custom origin, the
    entry point does nothing: no request, no file, no text, no exception. *)
Theorem no_custom_rule_no_activity (E : env) (C : cli) (arg_date : option string)
        (date : option datetime) (config : pyval) (rules : list pyval) (w : world) :
  cutoff_of C arg_date = Ok date ->
  py_getitem config "rules" = Ok (PList rules) ->
  forallb readable_rule rules = true ->
  forallb (fun rule => negb (has_custom_origin rule)) rules = true ->
  main E C arg_date (Ok config) w = (w, Ok tt).
Proof.
  intros Hdate Hrules Hread Hnone. unfold main. rewrite Hdate.
  unfold bind, lift. cbn [rbind]. unfold extract_custom_rules.
  rewrite Hrules. cbn [rbind py_iter].
  rewrite (select_pure rule_is_custom has_custom_origin rules).
  - now rewrite (filter_none _ _ Hnone).
  - intros rule Hin. apply rule_is_custom_readable.
    rewrite forallb_forall in Hread. now apply Hread.
Qed.

Lemma no_custom_rule_no_activity_witness :
  main sample_env sample_cli (Some "2006-01-03")
       (Ok (PDict [("rules", PList [community_rule; origin_only_rule])])) empty_world
  = (empty_world, Ok tt).
Proof.
  exact (no_custom_rule_no_activity sample_env sample_cli (Some "2006-01-03")
           (Some 1136246400)
           (PDict [("rules", PList [community_rule; origin_only_rule])])
           [community_rule; origin_only_rule] empty_world
           eq_refl eq_refl eq_refl eq_refl).
Defined.

(** ** [get_rule]: the address *)

Lemma append_cancel (p a b : string) : (p ++ a = p ++ b)%string -> a = b.
Proof.
  induction p as [| c p IH]; [trivial |].
  change (String c (p ++ a)%string = String c (p ++ b)%string -> a = b).
  intros H. injection H as H. now apply IH.
Qed.

(** X22. Two identifiers are asked for at the same address only when they
    are the same identifier, so the registry answers by identifier. *)
Theorem rule_path_injective (id id' : string) :
  rule_path id = rule_path id' -> id = id'.
Proof.
  unfold rule_path. intros H.
  apply append_cancel in H. now apply (append_cancel "/") in H.
Qed.

Lemma rule_path_injective_witness :
  rule_path "python.lang.security.foo"
  = "https://semgrep.dev/api/registry/rules//python.lang.security.foo"
  /\ "python.lang.security.foo" = "python.lang.security.foo".
Proof.
  split; [reflexivity |].
  exact (rule_path_injective "python.lang.security.foo" "python.lang.security.foo"
           eq_refl).
Defined.
